(** * VEX-Perception: the frame-embedding data pipeline of
    [pretrain-image-model.ipynb]

    A shallow embedding of the notebook's data-preparation code
    ([load_video_frames], [get_frame_embeddings], [prepare_data],
    [VideoFrameDataset], [load_video_paths]) together with the parts of
    Python, OpenCV and PyTorch that the code relies on, followed by the
    properties of the pipeline.

    Python values are modelled as the interpreter has them: [int] is [Z],
    [float] is an IEEE 754 binary64 number (Rocq's primitive [float]),
    [str] is [string], a [list] is a [list], and a raised exception is the
    [Err] case of an error monad carrying the exception's class.  The world
    the code reads is explicit: a file system maps a path to a directory
    listing or to a file, and a video file holds its frame rate and frames.
    A tensor is its shape with its elements in row-major order. *)

From Stdlib Require Import ZArith List Bool String Ascii Lia.
From Stdlib Require Import Floats.
Import ListNotations.

Open Scope string_scope.
Open Scope float_scope.
Open Scope list_scope.
Open Scope Z_scope.

(** ** Exceptions and the error monad *)

(** The classes of the exceptions the modelled code can raise. *)
Inductive exn : Type :=
| IndexError          (* list index out of range *)
| RuntimeError        (* torch.stack: empty list, or tensors of unequal size *)
| ValueError          (* round(nan) *)
| OverflowError       (* round(inf), or an int too large for a float *)
| ZeroDivisionError   (* float division by zero *)
| FileNotFoundError   (* os.listdir of a missing path *)
| NotADirectoryError. (* os.listdir of a regular file *)

Inductive result (A : Type) : Type :=
| Ok (a : A)
| Err (e : exn).

Arguments Ok {A} a.
Arguments Err {A} e.

Definition bind {A B : Type} (m : result A) (k : A -> result B) : result B :=
  match m with
  | Ok a => k a
  | Err e => Err e
  end.

Notation "x <- m ;; k" := (bind m (fun x => k))
  (at level 61, m at next level, right associativity).
Notation "' p <- m ;; k" := (bind m (fun x => let p := x in k))
  (at level 61, p pattern, m at next level, right associativity).

(** A list comprehension whose element expression can raise: elements are
    evaluated left to right and the first exception aborts the whole. *)
Fixpoint mapM {A B : Type} (f : A -> result B) (l : list A) : result (list B) :=
  match l with
  | [] => Ok []
  | a :: l' => b <- f a ;; bs <- mapM f l' ;; Ok (b :: bs)
  end.

(** The spec's error taxonomy, and the class of each Python exception in it:
    an [OSError] from the file system is a source-read error, the
    [RuntimeError] of [torch.stack] is the shape mismatch, and [IndexError]
    is itself. *)
Inductive error_kind : Type :=
| SourceReadError
| ShapeMismatchError
| IndexErrorKind
| ArithmeticErrorKind.

Definition kind_of (e : exn) : error_kind :=
  match e with
  | FileNotFoundError | NotADirectoryError => SourceReadError
  | RuntimeError => ShapeMismatchError
  | IndexError => IndexErrorKind
  | ValueError | OverflowError | ZeroDivisionError => ArithmeticErrorKind
  end.

(** ** Python built-ins *)

(** [len(l)] *)
Definition len {A : Type} (l : list A) : Z := Z.of_nat (List.length l).

(** [l[i]] on a list: a negative index counts from the end, and an index
    outside [-len(l), len(l)) raises [IndexError]. *)
Definition py_getitem {A : Type} (l : list A) (i : Z) : result A :=
  let j := if i <? 0 then i + len l else i in
  if (j <? 0) || (len l <=? j) then Err IndexError
  else match nth_error l (Z.to_nat j) with
       | Some a => Ok a
       | None => Err IndexError
       end.

(** [range(n)] *)
Definition range (n : Z) : list Z := map Z.of_nat (seq 0 (Z.to_nat n)).

(** A Python number as the code can receive one for [fps]. *)
Inductive pynum : Type :=
| PyInt (z : Z)
| PyFloat (f : float).

(** The conversion of an [int] to a [float] ([PyLong_AsDouble]): rounded to
    nearest, ties to even; an int beyond the doubles raises. *)
Definition float_of_int (z : Z) : result float :=
  match binary_normalize prec emax z 0 false with
  | S754_infinity _ => Err OverflowError
  | sf => Ok (SF2Prim sf)
  end.

Definition to_float (x : pynum) : result float :=
  match x with
  | PyInt z => float_of_int z
  | PyFloat f => Ok f
  end.

(** [a / b] with [a] a float: [b] is converted to a float, a zero divisor
    raises [ZeroDivisionError], and the quotient is the IEEE one (so it may
    be infinite or a NaN). *)
Definition truediv (a : float) (b : pynum) : result float :=
  b' <- to_float b ;;
  if is_zero b' then Err ZeroDivisionError else Ok (a / b')%float.

(** The integer nearest to [m * 2^e] ([m] positive), ties to even. *)
Definition round_half_even (m : positive) (e : Z) : Z :=
  if 0 <=? e then Z.pos m * 2 ^ e
  else
    let d := 2 ^ (- e) in
    let q := Z.pos m / d in
    let r := Z.pos m mod d in
    match 2 * r ?= d with
    | Lt => q
    | Gt => q + 1
    | Eq => if Z.even q then q else q + 1
    end.

(** [round(x)] of a float, with no [ndigits]: an [int], ties to even. *)
Definition py_round (x : float) : result Z :=
  match Prim2SF x with
  | S754_nan => Err ValueError
  | S754_infinity _ => Err OverflowError
  | S754_zero _ => Ok 0
  | S754_finite s m e =>
      let n := round_half_even m e in
      Ok (if s then - n else n)
  end.

(** [s.endswith(suffix)] *)
Definition endswith (s suffix : string) : bool :=
  let n := String.length s in
  let m := String.length suffix in
  (m <=? n)%nat && String.eqb (substring (n - m) m s) suffix.

(** [s.startswith(prefix)] *)
Definition startswith (s pre : string) : bool := String.prefix pre s.

(** [os.path.join(a, b)] of [posixpath], for two components. *)
Definition os_path_join (a b : string) : string :=
  if startswith b "/" then b
  else if String.eqb a "" || endswith a "/" then (a ++ b)%string
  else (a ++ "/" ++ b)%string.

(** ** PyTorch tensors *)

(** A dense tensor: its shape ([t.shape]) and its elements in row-major
    order.  The element type is a float. *)
Record tensor : Type := mkTensor { shape : list nat; data : list float }.

(** The number of elements of a tensor of shape [s]. *)
Definition numel (s : list nat) : nat := fold_right Nat.mul 1%nat s.

(** The representation invariant: as many elements as the shape says. *)
Definition wf_tensor (t : tensor) : Prop :=
  List.length (data t) = numel (shape t).

Definition shape_eqb (s1 s2 : list nat) : bool :=
  if list_eq_dec Nat.eq_dec s1 s2 then true else false.

(** [torch.zeros(s)] *)
Definition torch_zeros (s : list nat) : tensor :=
  mkTensor s (repeat 0%float (numel s)).

(** [torch.stack(ts)] along a new first dimension: raises [RuntimeError] on
    an empty list ("stack expects a non-empty TensorList") and when a tensor's
    size differs from the first one's ("stack expects each tensor to be equal
    size"). *)
Definition torch_stack (ts : list tensor) : result tensor :=
  match ts with
  | [] => Err RuntimeError
  | t0 :: _ =>
      if forallb (fun t => shape_eqb (shape t) (shape t0)) ts
      then Ok (mkTensor (List.length ts :: shape t0) (List.concat (map data ts)))
      else Err RuntimeError
  end.

(** [t[i]] for [0 <= i]: the [i]-th slice along the first dimension. *)
Definition select (t : tensor) (i : nat) : result tensor :=
  match shape t with
  | [] => Err IndexError
  | d :: s =>
      if (i <? d)%nat
      then Ok (mkTensor s (firstn (numel s) (skipn (i * numel s) (data t))))
      else Err IndexError
  end.

(** [torch.unbind(t)]: the slices of [t] along its first dimension. *)
Definition unbind (t : tensor) : result (list tensor) :=
  match shape t with
  | [] => Err RuntimeError
  | d :: _ => mapM (select t) (seq 0 d)
  end.

(** ** OpenCV, PIL and the file system *)

(** A decoded frame: rows of pixels, each pixel three channel bytes. *)
Definition pixel : Type := (Z * Z * Z)%type.
Definition ndarray : Type := list (list pixel).

(** [cv2.cvtColor(frame, cv2.COLOR_BGR2RGB)] *)
Definition cvtColor_BGR2RGB (frame : ndarray) : ndarray :=
  map (map (fun p : pixel => let '(b, g, r) := p in (r, g, b))) frame.

(** A PIL image, as [Image.fromarray] builds it from an RGB array. *)
Record Image : Type := fromarray { pixels : ndarray }.

(** What a video file holds: its native frame rate and its frames. *)
Record video : Type := mkVideo { frame_rate : float; stream : list ndarray }.

(** A node of the file system: a directory with the names [os.listdir]
    gives, in listing order, or a file, which may hold a decodable video. *)
Inductive node : Type :=
| Directory (entries : list string)
| File (content : option video).

Definition filesystem : Type := string -> option node.

(** The state of a [cv2.VideoCapture]: the value [get(cv2.CAP_PROP_FPS)]
    returns and the frames [read()] has still to deliver. *)
Record VideoCapture : Type :=
  mkCapture { CAP_PROP_FPS : float; pending : list ndarray }.

(** [cv2.VideoCapture(path)] never raises: on a path that is no decodable
    video the capture is not opened and [read()] returns [(False, None)] at
    once.  What [get(cv2.CAP_PROP_FPS)] reads on such a capture depends on
    the OpenCV release (0.0 in the 4.x series, -1.0 in 5.0); the model takes
    the 0.0 of the 4.x series.  The properties below are stated for the rate
    the capture reads, whichever it is, and none is stated about a capture
    that is not opened. *)
Definition cv2_VideoCapture (fs : filesystem) (path : string) : VideoCapture :=
  match fs path with
  | Some (File (Some v)) => mkCapture (frame_rate v) (stream v)
  | _ => mkCapture 0%float []
  end.

(** [os.listdir(path)] *)
Definition os_listdir (fs : filesystem) (path : string) : result (list string) :=
  match fs path with
  | Some (Directory entries) => Ok entries
  | Some (File _) => Err NotADirectoryError
  | None => Err FileNotFoundError
  end.

(** The embedding model: [img2vec.get_vec(frame, tensor=True)]. *)
Record Img2Vec : Type := mkImg2Vec { get_vec : Image -> tensor }.

(** ** The notebook's code *)

(** [frame_skip = max(1, round(frame_rate / fps))] *)
Definition frame_skip_of (frame_rate : float) (fps : pynum) : result Z :=
  q <- truediv frame_rate fps ;;
  n <- py_round q ;;
  Ok (Z.max 1 n).

(** The [while success:] loop of [load_video_frames].  [pending] are the
    frames [video.read()] has still to return: the head is the [frame] of the
    current iteration, and the empty list is [success == False]. *)
Fixpoint read_loop (frame_skip : Z) (pending : list ndarray) (count : Z)
    (frames : list Image) : list Image :=
  match pending with
  | [] => frames
  | frame :: pending' =>
      let frames' :=
        if count mod frame_skip =? 0
        then
          let frame_rgb := cvtColor_BGR2RGB frame in
          frames ++ [fromarray frame_rgb]
        else frames in
      read_loop frame_skip pending' (count + 1) frames'
  end.

(** [video.release()] frees the capture and has no part in the result. *)
Definition load_video_frames (fs : filesystem) (video_path : string)
    (fps : pynum) : result (list Image) :=
  let video := cv2_VideoCapture fs video_path in
  let frames := [] in
  let frame_rate := CAP_PROP_FPS video in
  frame_skip <- frame_skip_of frame_rate fps ;;
  Ok (read_loop frame_skip (pending video) 0 frames).

Definition get_frame_embeddings (frames : list Image) (img2vec : Img2Vec)
    : list tensor :=
  map (fun frame => get_vec img2vec frame) frames.

(** [null_frame if i - d < 0 else embedded_frames[i - d]] *)
Definition context_slot (embedded_frames : list tensor) (null_frame : tensor)
    (i d : Z) : result tensor :=
  if i - d <? 0 then Ok null_frame else py_getitem embedded_frames (i - d).

(** The [for i in range(len(embedded_frames)):] loop of [prepare_data], over
    the indices still to visit. *)
Fixpoint prepare_loop (embedded_frames : list tensor) (null_frame : tensor)
    (indices : list Z) (X : list (list tensor)) (y : list tensor)
    : result (list (list tensor) * list tensor) :=
  match indices with
  | [] => Ok (X, y)
  | i :: indices' =>
      c3 <- context_slot embedded_frames null_frame i 3 ;;
      c2 <- context_slot embedded_frames null_frame i 2 ;;
      c1 <- context_slot embedded_frames null_frame i 1 ;;
      t <- py_getitem embedded_frames i ;;
      prepare_loop embedded_frames null_frame indices'
        (X ++ [[c3; c2; c1]]) (y ++ [t])
  end.

Definition prepare_data (embedded_frames : list tensor)
    : result (tensor * tensor) :=
  e0 <- py_getitem embedded_frames 0 ;;
  let null_frame := torch_zeros (shape e0) in
  Xy <- prepare_loop embedded_frames null_frame
          (range (len embedded_frames)) [] [] ;;
  rows <- mapM torch_stack (fst Xy) ;;
  Xt <- torch_stack rows ;;
  yt <- torch_stack (snd Xy) ;;
  Ok (Xt, yt).

Module VideoFrameDataset.

Record t : Type := mk {
  video_paths : list string;
  img2vec : Img2Vec;
  transform : option (Image -> Image);
  fps : pynum;
  dataset : list tensor
}.

(** The [for video_path in self.video_paths:] loop.  [prepare_data]
    returns a tuple of two tensors, and [dataset.extend] appends the
    elements of its argument: the two tensors. *)
Fixpoint process_videos (fs : filesystem) (img2vec : Img2Vec) (fps : pynum)
    (paths : list string) (dataset : list tensor) : result (list tensor) :=
  match paths with
  | [] => Ok dataset
  | video_path :: paths' =>
      frames <- load_video_frames fs video_path fps ;;
      let embedded_frames := get_frame_embeddings frames img2vec in
      Xy <- prepare_data embedded_frames ;;
      process_videos fs img2vec fps paths' (dataset ++ [fst Xy; snd Xy])
  end.

Definition load_and_process_videos (fs : filesystem) (video_paths : list string)
    (img2vec : Img2Vec) (fps : pynum) : result (list tensor) :=
  process_videos fs img2vec fps video_paths [].

Definition __init__ (fs : filesystem) (video_paths : list string)
    (img2vec : Img2Vec) (transform : option (Image -> Image)) (fps : pynum)
    : result t :=
  dataset <- load_and_process_videos fs video_paths img2vec fps ;;
  Ok (mk video_paths img2vec transform fps dataset).

Definition __len__ (self : t) : Z := len (dataset self).

Definition __getitem__ (self : t) (idx : Z) : result tensor :=
  py_getitem (dataset self) idx.

End VideoFrameDataset.

Definition load_video_paths (fs : filesystem) (training_path : string)
    : result (list string) :=
  names <- os_listdir fs training_path ;;
  Ok (map (fun f => os_path_join training_path f)
          (filter (fun f => endswith f ".mp4") names)).

(** ** Observations used to state the properties *)

(** An Example of the spec: the context embeddings, oldest first, and the
    target embedding. *)
Definition Example : Type := (list tensor * tensor)%type.

(** The Examples held by the pair [(X, y)] that [prepare_data] returns:
    Example [i] is [(list(X[i]), y[i])]. *)
Definition examples_of (Xy : tensor * tensor) : result (list Example) :=
  rows <- unbind (fst Xy) ;;
  contexts <- mapM unbind rows ;;
  targets <- unbind (snd Xy) ;;
  Ok (combine contexts targets).

(** The spec's construction rule, in the spec's words: slot [k] of the
    context of Example [i] is the embedding of source index [i - (W - k)],
    or the null embedding when that index is negative. *)
Definition spec_context (W : nat) (embeddings : list tensor) (null : tensor)
    (i : nat) : list tensor :=
  map (fun k : nat =>
         if Z.of_nat i - (Z.of_nat W - Z.of_nat k) <? 0 then null
         else nth (i - (W - k)) embeddings null)
      (seq 0 W).

Definition spec_examples (W : nat) (embeddings : list tensor) (null : tensor)
    : list Example :=
  map (fun i : nat => (spec_context W embeddings null i, nth i embeddings null))
      (seq 0 (List.length embeddings)).

(** The claim "N Examples, each with a context of length W", as a predicate
    on the window size and the input of [prepare_data]. *)
Definition builds_windows_of (W : nat) (embeddings : list tensor) : Prop :=
  exists Xy examples,
    prepare_data embeddings = Ok Xy /\
    examples_of Xy = Ok examples /\
    List.length examples = List.length embeddings /\
    Forall (fun ex : Example => List.length (fst ex) = W) examples.

(** The claim "slot [k] of the context of Example [i] is the embedding of
    source index [i - (W - k)], or the null embedding, for every [k] in
    [[0, W)]; the target is [embeddings[i]]", as a predicate on the window
    size and the input of [prepare_data]. *)
Definition follows_window_rule (W : nat) (embeddings : list tensor)
    (null : tensor) : Prop :=
  exists Xy examples,
    prepare_data embeddings = Ok Xy /\
    examples_of Xy = Ok examples /\
    forall i, (i < List.length embeddings)%nat ->
      exists context,
        nth_error examples i = Some (context, nth i embeddings null) /\
        forall k, (k < W)%nat ->
          nth_error context k
          = Some (if Z.of_nat i - (Z.of_nat W - Z.of_nat k) <? 0 then null
                  else nth (i - (W - k)) embeddings null).

(** All the embeddings have the shape [s]. *)
Definition embeddings_of_shape (s : list nat) (embeddings : list tensor) : Prop :=
  Forall (fun e => shape e = s) embeddings.

(** The tensor [torch.stack] builds from tensors of shape [s]. *)
Definition stacked (s : list nat) (ts : list tensor) : tensor :=
  mkTensor (List.length ts :: s) (List.concat (map data ts)).

(** The embeddings share one shape. *)
Definition same_shapes (embeddings : list tensor) : Prop :=
  forall a b, In a embeddings -> In b embeddings -> shape a = shape b.

(** The spec's retention rule, in the spec's words: the zero-based indices
    below [n] that are zero modulo [stride], in increasing order. *)
Definition retained_indices (stride : Z) (n : nat) : list nat :=
  filter (fun i : nat => Z.of_nat i mod stride =? 0) (seq 0 n).

(** What [load_video_frames] makes of a retained frame. *)
Definition to_image (frame : ndarray) : Image :=
  fromarray (cvtColor_BGR2RGB frame).

(** A float that is neither a NaN nor an infinity. *)
Definition finite_float (x : float) : bool :=
  match Prim2SF x with
  | S754_zero _ | S754_finite _ _ _ => true
  | S754_infinity _ | S754_nan => false
  end.

(** ** Concrete inputs *)

Definition float_of_Z (z : Z) : float := SF2Prim (binary_normalize prec emax z 0 false).

(** A one-pixel frame whose channels tell the frames apart. *)
Definition demo_frame (n : Z) : ndarray := [[(n, n + 100, n + 200)]].

(** A video of [n] frames, numbered from [first]. *)
Definition demo_video (rate : float) (first n : Z) : video :=
  mkVideo rate (map (fun i => demo_frame (first + i)) (range n)).

(** A stand-in for the embedding model: the red and blue channels of the
    image's first pixel, as a vector of length 2. *)
Definition demo_img2vec : Img2Vec :=
  mkImg2Vec (fun img =>
    match pixels img with
    | ((r, _, b) :: _) :: _ => mkTensor [2%nat] [float_of_Z r; float_of_Z b]
    | _ => mkTensor [2%nat] [0%float; 0%float]
    end).

(** A corpus directory with two five-frame videos, recorded at 8 frames per
    second, beside a text file and a subdirectory; an empty directory; a
    14-frame video recorded at 30 frames per second; a video whose frame rate
    reads zero; and a video without a decodable frame. *)
Definition demo_fs : filesystem := fun path =>
  if String.eqb path "videos/" then
    Some (Directory ["a.mp4"; "notes.txt"; "b.mp4"; "clips"])
  else if String.eqb path "videos/a.mp4" then Some (File (Some (demo_video 8 0 5)))
  else if String.eqb path "videos/b.mp4" then Some (File (Some (demo_video 8 50 5)))
  else if String.eqb path "videos/notes.txt" then Some (File None)
  else if String.eqb path "videos/clips" then Some (Directory [])
  else if String.eqb path "empty/" then Some (Directory [])
  else if String.eqb path "film30.mp4" then Some (File (Some (demo_video 30 0 14)))
  else if String.eqb path "still.mp4" then Some (File (Some (demo_video 0 0 3)))
  else if String.eqb path "blank.mp4" then Some (File (Some (demo_video 30 0 0)))
  else None.

Definition demo_embeddings (n : Z) : list tensor :=
  map (fun i => mkTensor [2%nat] [float_of_Z i; float_of_Z (i + 200)]) (range n).

(** The same file system without the text file of the corpus directory. *)
Definition demo_fs_without_notes : filesystem := fun path =>
  if String.eqb path "videos/notes.txt" then None else demo_fs path.

(** * Properties *)

(** A closed fact about a concrete input is settled by evaluating the code. *)
Ltac by_evaluation := repeat split; vm_compute; reflexivity.

(** ** The error monad and the built-ins *)

Lemma bind_Ok_inv {A B : Type} (m : result A) (k : A -> result B) (b : B) :
  bind m k = Ok b -> exists a, m = Ok a /\ k a = Ok b.
Proof.
  destruct m as [a | e]; simpl; intros H; [eauto | discriminate].
Qed.

Lemma mapM_Ok {A B : Type} (f : A -> result B) (g : A -> B) (l : list A) :
  (forall a, In a l -> f a = Ok (g a)) -> mapM f l = Ok (map g l).
Proof.
  induction l as [| a l IH]; intros Hf; simpl; [reflexivity |].
  rewrite (Hf a (or_introl eq_refl)); simpl.
  rewrite IH by (intros; apply Hf; now right).
  reflexivity.
Qed.

Lemma mapM_seq_nth {B : Type} (f : nat -> result B) (d : B) (l : list B) :
  forall k,
    (forall i, (i < List.length l)%nat -> f (k + i)%nat = Ok (nth i l d)) ->
    mapM f (seq k (List.length l)) = Ok l.
Proof.
  induction l as [| b l IH]; intros k Hf; simpl; [reflexivity |].
  specialize (Hf 0%nat) as H0. simpl in H0.
  rewrite Nat.add_0_r in H0. rewrite H0 by lia. simpl.
  rewrite IH; [reflexivity |].
  intros i Hi. specialize (Hf (S i)). simpl in Hf.
  replace (S k + i)%nat with (k + S i)%nat by lia. apply Hf. lia.
Qed.

(** An index in [[0, len)] reads the element at that position. *)
Lemma py_getitem_nth {A : Type} (l : list A) (d : A) (i : nat) :
  (i < List.length l)%nat -> py_getitem l (Z.of_nat i) = Ok (nth i l d).
Proof.
  intros Hi. unfold py_getitem, len. cbv zeta.
  assert (H0 : (Z.of_nat i <? 0) = false) by (apply Z.ltb_ge; lia).
  assert (H1 : (Z.of_nat (List.length l) <=? Z.of_nat i) = false)
    by (apply Z.leb_gt; lia).
  rewrite !H0, H1. simpl. rewrite Nat2Z.id.
  destruct (nth_error l i) as [a |] eqn:E.
  - rewrite (nth_error_nth l i d E). reflexivity.
  - apply nth_error_None in E. lia.
Qed.

(** ** Tensors: stacking and slicing *)

Lemma shape_eqb_true (s1 s2 : list nat) : shape_eqb s1 s2 = true <-> s1 = s2.
Proof.
  unfold shape_eqb. destruct (list_eq_dec Nat.eq_dec s1 s2); split;
    intros; congruence.
Qed.

(** [torch.stack] raises nothing but [RuntimeError]. *)
Lemma torch_stack_Err (ts : list tensor) (e : exn) :
  torch_stack ts = Err e -> e = RuntimeError.
Proof.
  unfold torch_stack. destruct ts as [| t0 ts]; [congruence |].
  destruct (forallb _ _); congruence.
Qed.

(** It succeeds only on a non-empty list of tensors of one shape. *)
Lemma torch_stack_Ok_inv (ts : list tensor) (t : tensor) :
  torch_stack ts = Ok t -> ts <> [] /\ same_shapes ts.
Proof.
  unfold torch_stack. destruct ts as [| t0 ts]; [discriminate |].
  destruct (forallb _ _) eqn:E; [| discriminate]. intros _.
  split; [discriminate |].
  rewrite forallb_forall in E. intros a b Ha Hb.
  apply E in Ha, Hb. apply shape_eqb_true in Ha, Hb. congruence.
Qed.

Lemma torch_stack_Ok (s : list nat) (ts : list tensor) :
  ts <> [] -> embeddings_of_shape s ts -> torch_stack ts = Ok (stacked s ts).
Proof.
  intros Hne Hs. unfold torch_stack, stacked.
  destruct ts as [| t0 ts]; [congruence |].
  unfold embeddings_of_shape in Hs. rewrite Forall_forall in Hs.
  assert (H0 : shape t0 = s) by (apply Hs; now left).
  replace (forallb (fun t => shape_eqb (shape t) (shape t0)) (t0 :: ts)) with true.
  - now rewrite H0.
  - symmetry. apply forallb_forall. intros t Ht. apply shape_eqb_true.
    rewrite H0. now apply Hs.
Qed.

Lemma length_concat_uniform {A : Type} (n : nat) (ls : list (list A)) :
  Forall (fun l => List.length l = n) ls ->
  List.length (List.concat ls) = (List.length ls * n)%nat.
Proof.
  induction 1 as [| l ls Hl _ IH]; simpl; [reflexivity |].
  rewrite length_app, IH, Hl. reflexivity.
Qed.

(** The [i]-th block of [n] elements of a concatenation of lists of length
    [n] is the [i]-th list. *)
Lemma firstn_skipn_concat {A : Type} (n : nat) (ls : list (list A)) (d : list A) :
  Forall (fun l => List.length l = n) ls ->
  forall i, (i < List.length ls)%nat ->
    firstn n (skipn (i * n) (List.concat ls)) = nth i ls d.
Proof.
  induction 1 as [| l ls Hl Hls IH]; intros i Hi; simpl in Hi; [lia |].
  destruct i as [| i]; simpl.
  - rewrite firstn_app, Hl, Nat.sub_diag, firstn_O, app_nil_r.
    rewrite <- Hl. apply firstn_all.
  - rewrite skipn_app, Hl.
    rewrite (skipn_all2 l) by lia. simpl.
    replace (n + i * n - n)%nat with (i * n)%nat by lia.
    apply IH. lia.
Qed.

Lemma stacked_wf (s : list nat) (ts : list tensor) :
  embeddings_of_shape s ts -> Forall wf_tensor ts ->
  shape (stacked s ts) = List.length ts :: s /\ wf_tensor (stacked s ts).
Proof.
  intros Hs Hwf. split; [reflexivity |].
  unfold wf_tensor, stacked. simpl.
  rewrite (length_concat_uniform (numel s)), length_map; [reflexivity |].
  apply Forall_map. unfold embeddings_of_shape in Hs.
  rewrite Forall_forall in *. intros t Ht.
  rewrite (Hwf t Ht), (Hs t Ht). reflexivity.
Qed.

(** Slicing a stack gives back the stacked tensors. *)
Lemma select_stacked (s : list nat) (ts : list tensor) (d : tensor) (i : nat) :
  embeddings_of_shape s ts -> Forall wf_tensor ts ->
  (i < List.length ts)%nat ->
  select (stacked s ts) i = Ok (nth i ts d).
Proof.
  intros Hs Hwf Hi. unfold select, stacked. simpl.
  apply Nat.ltb_lt in Hi as Hb. rewrite Hb. apply Nat.ltb_lt in Hb.
  unfold embeddings_of_shape in Hs. rewrite Forall_forall in Hs, Hwf.
  assert (Hin : In (nth i ts d) ts) by now apply nth_In.
  rewrite (firstn_skipn_concat (numel s) (map data ts) (data d)).
  - rewrite map_nth. specialize (Hs _ Hin).
    destruct (nth i ts d) as [sh da]. simpl in *. now subst.
  - apply Forall_map, Forall_forall. intros t Ht.
    rewrite (Hwf t Ht), (Hs t Ht). reflexivity.
  - now rewrite length_map.
Qed.

Lemma unbind_stacked (s : list nat) (ts : list tensor) :
  embeddings_of_shape s ts -> Forall wf_tensor ts ->
  unbind (stacked s ts) = Ok ts.
Proof.
  intros Hs Hwf. unfold unbind. simpl.
  apply (mapM_seq_nth _ (torch_zeros s)). intros i Hi. simpl.
  now apply select_stacked.
Qed.

Lemma torch_zeros_wf (s : list nat) :
  shape (torch_zeros s) = s /\ wf_tensor (torch_zeros s).
Proof.
  split; [reflexivity |]. unfold wf_tensor, torch_zeros. simpl.
  apply repeat_length.
Qed.

(** ** [prepare_data]: the windows it builds *)

Lemma map_nth_seq {A : Type} (l : list A) (d : A) :
  map (fun i => nth i l d) (seq 0 (List.length l)) = l.
Proof.
  induction l as [| a l IH]; simpl; [reflexivity |].
  f_equal. rewrite <- seq_shift, map_map. exact IH.
Qed.

Lemma mapM_map {A B C : Type} (f : B -> result C) (h : A -> B) (l : list A) :
  mapM f (map h l) = mapM (fun a => f (h a)) l.
Proof.
  induction l as [| a l IH]; simpl; [reflexivity |]. now rewrite IH.
Qed.

Lemma combine_map_map {A B C : Type} (f : A -> B) (g : A -> C) (l : list A) :
  combine (map f l) (map g l) = map (fun a => (f a, g a)) l.
Proof.
  induction l as [| a l IH]; simpl; [reflexivity |]. now rewrite IH.
Qed.

Lemma nth_Forall {A : Type} (P : A -> Prop) (l : list A) (d : A) (i : nat) :
  Forall P l -> P d -> P (nth i l d).
Proof.
  intros Hl Hd. destruct (Nat.lt_ge_cases i (List.length l)) as [Hi | Hi].
  - rewrite Forall_forall in Hl. apply Hl. now apply nth_In.
  - now rewrite nth_overflow.
Qed.

(** A context slot never raises when [i] is an index of the list: the index
    [i - d] it reads is checked to be non-negative and is below [i]. *)
Lemma context_slot_spec (embs : list tensor) (null : tensor) (i d : nat) :
  (i < List.length embs)%nat ->
  context_slot embs null (Z.of_nat i) (Z.of_nat d)
  = Ok (if Z.of_nat i - Z.of_nat d <? 0 then null else nth (i - d) embs null).
Proof.
  intros Hi. unfold context_slot.
  destruct (Z.ltb_spec (Z.of_nat i - Z.of_nat d) 0) as [Hlt | Hge];
    [reflexivity |].
  rewrite <- Nat2Z.inj_sub by lia.
  apply py_getitem_nth. lia.
Qed.

Lemma spec_context_3 (embs : list tensor) (null : tensor) (i : nat) :
  spec_context 3 embs null i
  = [ if Z.of_nat i - 3 <? 0 then null else nth (i - 3) embs null;
      if Z.of_nat i - 2 <? 0 then null else nth (i - 2) embs null;
      if Z.of_nat i - 1 <? 0 then null else nth (i - 1) embs null ].
Proof. reflexivity. Qed.

Lemma prepare_loop_spec (embs : list tensor) (null : tensor) :
  forall (idx : list nat) (X : list (list tensor)) (y : list tensor),
    Forall (fun i => (i < List.length embs)%nat) idx ->
    prepare_loop embs null (map Z.of_nat idx) X y
    = Ok (X ++ map (spec_context 3 embs null) idx,
          y ++ map (fun i => nth i embs null) idx).
Proof.
  induction idx as [| i idx IH]; intros X y Hidx; cbn [map prepare_loop].
  - now rewrite !app_nil_r.
  - inversion Hidx as [| ? ? Hi Hrest]; subst.
    pose proof (context_slot_spec embs null i 3 Hi) as H3.
    pose proof (context_slot_spec embs null i 2 Hi) as H2.
    pose proof (context_slot_spec embs null i 1 Hi) as H1.
    change (Z.of_nat 3) with 3 in H3.
    change (Z.of_nat 2) with 2 in H2.
    change (Z.of_nat 1) with 1 in H1.
    rewrite H3, H2, H1, (py_getitem_nth embs null i Hi).
    cbn [bind]. rewrite IH by assumption.
    rewrite spec_context_3. cbn [map]. rewrite <- !app_assoc. reflexivity.
Qed.

Lemma spec_context_length (W : nat) (embs : list tensor) (null : tensor) (i : nat) :
  List.length (spec_context W embs null i) = W.
Proof. unfold spec_context. now rewrite length_map, length_seq. Qed.

Lemma spec_context_Forall (P : tensor -> Prop) (W : nat) (embs : list tensor)
    (null : tensor) (i : nat) :
  Forall P embs -> P null -> Forall P (spec_context W embs null i).
Proof.
  intros He Hn. unfold spec_context. apply Forall_map, Forall_forall.
  intros k _. destruct (_ <? _); [assumption | now apply nth_Forall].
Qed.

Lemma spec_examples_nth (W : nat) (embs : list tensor) (null : tensor) (i : nat) :
  (i < List.length embs)%nat ->
  nth_error (spec_examples W embs null) i
  = Some (spec_context W embs null i, nth i embs null).
Proof.
  intros Hi. unfold spec_examples.
  rewrite nth_error_map, nth_error_seq.
  apply Nat.ltb_lt in Hi. now rewrite Hi.
Qed.

Lemma spec_context_nth (W : nat) (embs : list tensor) (null : tensor) (i k : nat) :
  (k < W)%nat ->
  nth_error (spec_context W embs null i) k
  = Some (if Z.of_nat i - (Z.of_nat W - Z.of_nat k) <? 0 then null
          else nth (i - (W - k)) embs null).
Proof.
  intros Hk. unfold spec_context.
  rewrite nth_error_map, nth_error_seq.
  apply Nat.ltb_lt in Hk. now rewrite Hk.
Qed.

(** On a non-empty input the loop of [prepare_data] never raises, whatever
    the shapes: what can raise is the stacking that follows it. *)
Lemma prepare_data_unfold (embs : list tensor) (d : tensor) :
  embs <> [] ->
  prepare_data embs
  = (rows <- mapM torch_stack
               (map (spec_context 3 embs (torch_zeros (shape (nth 0 embs d))))
                    (seq 0 (List.length embs))) ;;
     Xt <- torch_stack rows ;;
     yt <- torch_stack embs ;;
     Ok (Xt, yt)).
Proof.
  intros Hne. unfold prepare_data.
  assert (Hlen : (0 < List.length embs)%nat)
    by (destruct embs; [congruence | simpl; lia]).
  pose proof (py_getitem_nth embs d 0 Hlen) as Hg.
  change (Z.of_nat 0) with 0 in Hg. rewrite Hg. cbn [bind].
  unfold range, len. rewrite Nat2Z.id.
  rewrite prepare_loop_spec
    by (apply Forall_forall; intros i Hi; apply in_seq in Hi; lia).
  cbn [bind fst snd app]. now rewrite map_nth_seq.
Qed.

Lemma mapM_torch_stack_Err (cs : list (list tensor)) (e : exn) :
  mapM torch_stack cs = Err e -> e = RuntimeError.
Proof.
  induction cs as [| c cs IH]; simpl; [discriminate |].
  destruct (torch_stack c) as [t | e'] eqn:E; simpl.
  - destruct (mapM torch_stack cs) as [ts | e'']; simpl; [discriminate |].
    intros H. apply IH. congruence.
  - intros H. apply torch_stack_Err in E. congruence.
Qed.

Lemma same_shapes_of_shape (embs : list tensor) (d : tensor) :
  same_shapes embs -> embeddings_of_shape (shape (nth 0 embs d)) embs.
Proof.
  intros Hsame. apply Forall_forall. intros e He.
  apply Hsame; [exact He |].
  apply nth_In. destruct embs; [contradiction | simpl; lia].
Qed.

Section OneShape.

(** The contract of the embedding model: the embeddings of a run share one
    shape [s].  The sequence is that of a video with at least one sampled
    frame. *)
Variable s : list nat.
Variable embs : list tensor.
Hypothesis embs_nonempty : embs <> [].
Hypothesis embs_shape : embeddings_of_shape s embs.

(** The rows of [X] and the tensors [X] and [y] of a non-empty input of one
    shape. *)
Lemma prepare_data_Ok :
  prepare_data embs
  = Ok (stacked (3%nat :: s)
          (map (fun i => stacked s (spec_context 3 embs (torch_zeros s) i))
               (seq 0 (List.length embs))),
        stacked s embs).
Proof.
  pose proof embs_nonempty as Hne. pose proof embs_shape as Hs.
  unfold prepare_data.
  assert (Hlen : (0 < List.length embs)%nat)
    by (destruct embs; [congruence | simpl; lia]).
  pose proof (py_getitem_nth embs (torch_zeros s) 0 Hlen) as Hg.
  change (Z.of_nat 0) with 0 in Hg. rewrite Hg. cbn [bind].
  assert (H0 : shape (nth 0 embs (torch_zeros s)) = s)
    by (apply (nth_Forall (fun e => shape e = s)); [exact Hs | reflexivity]).
  rewrite H0. unfold range, len. rewrite Nat2Z.id.
  rewrite prepare_loop_spec
    by (apply Forall_forall; intros i Hi; apply in_seq in Hi; lia).
  cbn [bind fst snd app].
  rewrite map_nth_seq.
  rewrite (mapM_Ok torch_stack
             (fun c => stacked s c)
             (map (spec_context 3 embs (torch_zeros s)) (seq 0 (List.length embs)))).
  2:{ intros c Hc. apply in_map_iff in Hc as (i & <- & _).
      apply torch_stack_Ok.
      - rewrite spec_context_3. discriminate.
      - apply spec_context_Forall; [exact Hs | reflexivity]. }
  cbn [bind]. rewrite map_map.
  rewrite (torch_stack_Ok (3%nat :: s)).
  2:{ destruct embs; [congruence | discriminate]. }
  2:{ apply Forall_map, Forall_forall. intros i _.
      unfold stacked. cbn [shape]. now rewrite spec_context_length. }
  cbn [bind]. rewrite (torch_stack_Ok s) by assumption.
  reflexivity.
Qed.

(** Each embedding has as many elements as its shape says. *)
Hypothesis embs_wf : Forall wf_tensor embs.

(** Read back as Examples, they are the Examples of the construction rule
    with a window of three. *)
Lemma examples_of_prepared :
  examples_of
    (stacked (3%nat :: s)
       (map (fun i => stacked s (spec_context 3 embs (torch_zeros s) i))
            (seq 0 (List.length embs))),
     stacked s embs)
  = Ok (spec_examples 3 embs (torch_zeros s)).
Proof.
  pose proof embs_shape as Hs. pose proof embs_wf as Hwf.
  unfold examples_of. cbn [fst snd].
  assert (Hctx : forall i,
             embeddings_of_shape s (spec_context 3 embs (torch_zeros s) i) /\
             Forall wf_tensor (spec_context 3 embs (torch_zeros s) i)).
  { intros i. split; apply spec_context_Forall;
      try assumption; apply torch_zeros_wf. }
  rewrite unbind_stacked.
  2:{ apply Forall_map, Forall_forall. intros i _.
      unfold stacked. cbn [shape]. now rewrite spec_context_length. }
  2:{ apply Forall_map, Forall_forall. intros i _.
      apply stacked_wf; apply Hctx. }
  cbn [bind]. rewrite mapM_map.
  rewrite (mapM_Ok _ (spec_context 3 embs (torch_zeros s)))
    by (intros i _; apply unbind_stacked; apply Hctx).
  cbn [bind]. rewrite unbind_stacked by assumption. cbn [bind].
  unfold spec_examples.
  rewrite <- (combine_map_map (spec_context 3 embs (torch_zeros s))
                (fun i => nth i embs (torch_zeros s))).
  now rewrite map_nth_seq.
Qed.

(** C2, amended: for every non-empty sequence of [N] well-formed embeddings
    of one shape [s], [prepare_data] returns [X] of shape [N :: 3 :: s] and
    [y] of shape [N :: s], that is exactly [N] Examples, each with a context
    of exactly three slots. *)
Theorem prepare_data_window_of_three :
  (exists Xt yt,
      prepare_data embs = Ok (Xt, yt) /\
      shape Xt = List.length embs :: 3%nat :: s /\
      shape yt = List.length embs :: s) /\
  builds_windows_of 3 embs.
Proof.
  split.
  - eexists _, _. split; [exact prepare_data_Ok |].
    unfold stacked. cbn [shape]. now rewrite length_map, length_seq.
  - eexists _, _. split; [exact prepare_data_Ok |].
    split; [exact examples_of_prepared |].
    unfold spec_examples. split.
    + now rewrite length_map, length_seq.
    + apply Forall_map, Forall_forall. intros i _. cbn [fst].
      apply spec_context_length.
Qed.

(** C4, amended: for a non-empty sequence of well-formed embeddings of one
    shape, the Examples [prepare_data] builds are those of the construction
    rule with the window fixed at three, the constant of the code: Example
    [i] has the target [embeddings[i]], and slot [k] of its context, for [k]
    in [[0, 3)], is [embeddings[i - (3 - k)]], or the all-zero embedding when
    [i - (3 - k) < 0]; for five embeddings [e0..e4] they are
    [([0,0,0],e0)], [([0,0,e0],e1)], [([0,e0,e1],e2)], [([e0,e1,e2],e3)],
    [([e1,e2,e3],e4)]. *)
Theorem prepare_data_examples :
  exists Xy examples,
    prepare_data embs = Ok Xy /\
    examples_of Xy = Ok examples /\
    examples = spec_examples 3 embs (torch_zeros s) /\
    (forall i, (i < List.length embs)%nat ->
       exists context,
         nth_error examples i = Some (context, nth i embs (torch_zeros s)) /\
         forall k, (k < 3)%nat ->
           nth_error context k
           = Some (if Z.of_nat i - (3 - Z.of_nat k) <? 0 then torch_zeros s
                   else nth (i - (3 - k)) embs (torch_zeros s))) /\
    (forall e0 e1 e2 e3 e4, embs = [e0; e1; e2; e3; e4] ->
       let null := torch_zeros s in
       examples = [ ([null; null; null], e0);
                    ([null; null; e0], e1);
                    ([null; e0; e1], e2);
                    ([e0; e1; e2], e3);
                    ([e1; e2; e3], e4) ]).
Proof.
  exists (stacked (3%nat :: s)
            (map (fun i => stacked s (spec_context 3 embs (torch_zeros s) i))
                 (seq 0 (List.length embs))),
          stacked s embs),
         (spec_examples 3 embs (torch_zeros s)).
  split; [exact prepare_data_Ok |].
  split; [exact examples_of_prepared |].
  split; [reflexivity |]. split.
  - intros i Hi. exists (spec_context 3 embs (torch_zeros s) i).
    split; [now apply spec_examples_nth |].
    intros k Hk. now apply spec_context_nth.
  - intros e0 e1 e2 e3 e4 ->. reflexivity.
Qed.

End OneShape.

(** The five embeddings of the demo: five Examples with three slots each. *)
Lemma prepare_data_window_of_three_witness :
  (exists Xt yt,
      prepare_data (demo_embeddings 5) = Ok (Xt, yt) /\
      shape Xt = [5; 3; 2]%nat /\ shape yt = [5; 2]%nat) /\
  builds_windows_of 3 (demo_embeddings 5).
Proof.
  apply (prepare_data_window_of_three [2%nat] (demo_embeddings 5)).
  - discriminate.
  - repeat constructor.
  - repeat constructor.
Defined.

(** The construction rule on the five embeddings of the demo. *)
Lemma prepare_data_examples_witness :
  exists Xy examples,
    prepare_data (demo_embeddings 5) = Ok Xy /\
    examples_of Xy = Ok examples /\
    examples = spec_examples 3 (demo_embeddings 5) (torch_zeros [2%nat]) /\
    (forall i, (i < List.length (demo_embeddings 5))%nat ->
       exists context,
         nth_error examples i
         = Some (context, nth i (demo_embeddings 5) (torch_zeros [2%nat])) /\
         forall k, (k < 3)%nat ->
           nth_error context k
           = Some (if Z.of_nat i - (3 - Z.of_nat k) <? 0 then torch_zeros [2%nat]
                   else nth (i - (3 - k)) (demo_embeddings 5) (torch_zeros [2%nat]))) /\
    (forall e0 e1 e2 e3 e4, demo_embeddings 5 = [e0; e1; e2; e3; e4] ->
       let null := torch_zeros [2%nat] in
       examples = [ ([null; null; null], e0);
                    ([null; null; e0], e1);
                    ([null; e0; e1], e2);
                    ([e0; e1; e2], e3);
                    ([e1; e2; e3], e4) ]).
Proof.
  apply (prepare_data_examples [2%nat] (demo_embeddings 5)).
  - discriminate.
  - repeat constructor.
  - repeat constructor.
Defined.

(** C4, as stated for a window size [W], fails: the rule of a window of
    two is not what [prepare_data] builds.  Of two embeddings [e0, e1] the
    second Example has the context [[0, 0, e0]], whose slot 1 is the null
    embedding, where the rule of [W = 2] puts [e0]. *)
Lemma prepare_data_rule_of_three_only :
  ~ follows_window_rule 2 (demo_embeddings 2) (torch_zeros [2%nat]).
Proof.
  intros (Xy & examples & Hp & He & Hrule).
  vm_compute in Hp. injection Hp as <-.
  vm_compute in He. injection He as <-.
  destruct (Hrule 1%nat) as (context & Hctx & Hslots); [simpl; lia |].
  vm_compute in Hctx. injection Hctx as <-.
  specialize (Hslots 1%nat ltac:(lia)). vm_compute in Hslots.
  discriminate Hslots.
Qed.

(** C2, as stated, fails: the window is not a parameter of [prepare_data]
    but the constant three, so a window of two is not what a one-frame video
    gets; and the empty sequence gets no result at all. *)
Lemma prepare_data_window_not_configurable :
  ~ builds_windows_of 2 (demo_embeddings 1) /\ ~ builds_windows_of 3 [].
Proof.
  split; intros (Xy & examples & Hp & He & Hl & Hf).
  - vm_compute in Hp. injection Hp as <-.
    vm_compute in He. injection He as <-.
    inversion Hf as [| ? ? H3 _]. simpl in H3. discriminate.
  - vm_compute in Hp. discriminate.
Qed.

(** C3: an empty embedding sequence makes [prepare_data] raise
    [IndexError] (at [embedded_frames[0]]) instead of returning zero
    Examples, and a video without a decodable frame therefore aborts the
    construction of the dataset. *)
Theorem prepare_data_empty_raises :
  prepare_data [] = Err IndexError /\
  load_video_frames demo_fs "blank.mp4" (PyInt 8) = Ok [] /\
  VideoFrameDataset.__init__ demo_fs ["blank.mp4"] demo_img2vec None (PyInt 8)
  = Err IndexError.
Proof. by_evaluation. Qed.

(** C9: embeddings that do not all share one shape make [prepare_data]
    raise the [RuntimeError] of [torch.stack], the shape-mismatch error,
    instead of returning malformed tensors; embeddings of one shape raise no
    such error, and a non-empty sequence of them gets a result. *)
Theorem prepare_data_detects_shape_mismatch (embs : list tensor) :
  (~ same_shapes embs ->
     prepare_data embs = Err RuntimeError /\
     kind_of RuntimeError = ShapeMismatchError) /\
  (same_shapes embs ->
     prepare_data embs <> Err RuntimeError /\
     (embs <> [] -> exists Xy, prepare_data embs = Ok Xy)).
Proof.
  split.
  - intros Hdiff. split; [| reflexivity].
    assert (Hne : embs <> []).
    { intros ->. apply Hdiff. intros a b []. }
    rewrite (prepare_data_unfold embs (torch_zeros []) Hne).
    destruct (mapM torch_stack _) as [rows | e] eqn:Erows; cbn [bind].
    2:{ apply mapM_torch_stack_Err in Erows. now subst. }
    destruct (torch_stack rows) as [Xt | e] eqn:EX; cbn [bind].
    2:{ apply torch_stack_Err in EX. now subst. }
    destruct (torch_stack embs) as [yt | e] eqn:Ey; cbn [bind].
    + apply torch_stack_Ok_inv in Ey. destruct Ey as [_ Hsame].
      contradiction.
    + apply torch_stack_Err in Ey. now subst.
  - intros Hsame. destruct embs as [| e0 embs'].
    + split; [intros H; vm_compute in H; discriminate H | congruence].
    + pose proof (same_shapes_of_shape _ (torch_zeros []) Hsame) as Hs.
      assert (Hne : e0 :: embs' <> []) by discriminate.
      rewrite (prepare_data_Ok _ _ Hne Hs).
      split; [discriminate | eauto].
Qed.

(** ** [load_video_frames]: the stride and the frames it retains *)

Lemma read_loop_spec (frame_skip : Z) :
  forall (todo : list ndarray) (c : nat) (frames : list Image),
    read_loop frame_skip todo (Z.of_nat c) frames
    = frames ++
      map (fun i => to_image (nth (i - c) todo []))
          (filter (fun i : nat => Z.of_nat i mod frame_skip =? 0)
                  (seq c (List.length todo))).
Proof.
  induction todo as [| frame todo IH]; intros c frames;
    cbn [read_loop List.length seq filter map].
  - now rewrite app_nil_r.
  - replace (Z.of_nat c + 1) with (Z.of_nat (S c)) by lia.
    rewrite IH.
    assert (Hshift :
      map (fun i => to_image (nth (i - c) (frame :: todo) []))
          (filter (fun i : nat => Z.of_nat i mod frame_skip =? 0)
                  (seq (S c) (List.length todo)))
      = map (fun i => to_image (nth (i - S c) todo []))
          (filter (fun i : nat => Z.of_nat i mod frame_skip =? 0)
                  (seq (S c) (List.length todo)))).
    { apply map_ext_in. intros i Hi. apply filter_In in Hi as [Hi _].
      apply in_seq in Hi.
      replace (i - c)%nat with (S (i - S c)) by lia. reflexivity. }
    destruct (Z.of_nat c mod frame_skip =? 0); cbn [map].
    + rewrite Hshift, Nat.sub_diag, <- app_assoc. reflexivity.
    + now rewrite Hshift.
Qed.

(** The frames returned are the frames at the retained indices, converted,
    in order; the call fails exactly when the stride cannot be computed. *)
Lemma load_video_frames_spec (fs : filesystem) (video_path : string) (fps : pynum) :
  let cap := cv2_VideoCapture fs video_path in
  load_video_frames fs video_path fps
  = (stride <- frame_skip_of (CAP_PROP_FPS cap) fps ;;
     Ok (map (fun i => to_image (nth i (pending cap) []))
             (retained_indices stride (List.length (pending cap))))).
Proof.
  intros cap. unfold load_video_frames. fold cap.
  destruct (frame_skip_of (CAP_PROP_FPS cap) fps) as [stride | e];
    cbn [bind]; [| reflexivity].
  change 0 with (Z.of_nat 0) at 1. rewrite read_loop_spec. cbn [app].
  f_equal. apply map_ext. intros i. now rewrite Nat.sub_0_r.
Qed.

Lemma retained_indices_In (stride : Z) (n i : nat) :
  In i (retained_indices stride n)
  <-> (i < n)%nat /\ Z.of_nat i mod stride = 0.
Proof.
  unfold retained_indices. rewrite filter_In, in_seq, Z.eqb_eq. lia.
Qed.

Lemma retained_indices_S (stride : Z) (n : nat) :
  retained_indices stride (S n)
  = retained_indices stride n
    ++ (if Z.of_nat n mod stride =? 0 then [n] else []).
Proof.
  unfold retained_indices. rewrite seq_S, filter_app. cbn [filter Nat.add].
  reflexivity.
Qed.

(** The retained indices are the multiples of the stride below [n]:
    [0, stride, 2 * stride, ...]. *)
Lemma retained_indices_multiples (stride : Z) (n : nat) :
  1 <= stride ->
  retained_indices stride n
  = map (fun j => (j * Z.to_nat stride)%nat)
        (seq 0 (Z.to_nat ((Z.of_nat n + stride - 1) / stride))).
Proof.
  intros Hk. induction n as [| n IH].
  - rewrite Z.div_small by lia. reflexivity.
  - rewrite retained_indices_S, IH. clear IH.
    pose proof (Z.div_mod (Z.of_nat n) stride ltac:(lia)) as Hdm.
    pose proof (Z.mod_pos_bound (Z.of_nat n) stride ltac:(lia)) as Hb.
    set (a := Z.of_nat n / stride) in *.
    set (r := Z.of_nat n mod stride) in *.
    assert (Ha : 0 <= a) by (apply Z.div_pos; lia).
    destruct (Z.eqb_spec r 0) as [Hr | Hr].
    + assert (Hq : (Z.of_nat n + stride - 1) / stride = a).
      { symmetry. apply (Z.div_unique _ _ a (stride - 1)); lia. }
      assert (Hq' : (Z.of_nat (S n) + stride - 1) / stride = a + 1).
      { symmetry. apply (Z.div_unique _ _ (a + 1) 0); lia. }
      rewrite Hq, Hq'.
      replace (Z.to_nat (a + 1)) with (S (Z.to_nat a)) by lia.
      rewrite seq_S, map_app. cbn [map Nat.add]. do 2 f_equal. nia.
    + assert (Hq : (Z.of_nat n + stride - 1) / stride = a + 1).
      { symmetry. apply (Z.div_unique _ _ (a + 1) (r - 1)); lia. }
      assert (Hq' : (Z.of_nat (S n) + stride - 1) / stride = a + 1).
      { symmetry. apply (Z.div_unique _ _ (a + 1) r); lia. }
      rewrite Hq, Hq'. now rewrite app_nil_r.
Qed.

(** *** Floats *)

(** A positive float is finite and positive, or plus infinity. *)
Lemma positive_float_cases (f : float) :
  (0 <? f)%float = true ->
  (exists m e, Prim2SF f = S754_finite false m e) \/
  Prim2SF f = S754_infinity false.
Proof.
  rewrite ltb_spec. change (Prim2SF 0%float) with (S754_zero false).
  destruct (Prim2SF f) as [s | s | | s m e]; cbn; try discriminate.
  - destruct s; [discriminate | now right].
  - destruct s; [discriminate | left; eauto].
Qed.

Lemma positive_float_not_zero (f : float) :
  (0 <? f)%float = true -> is_zero f = false.
Proof.
  intros H. unfold is_zero. rewrite eqb_spec.
  change (Prim2SF zero) with (S754_zero false).
  destruct (positive_float_cases f H) as [(m & e & ->) | ->]; reflexivity.
Qed.

(** Zero divided by a positive float is zero. *)
Lemma zero_div_positive (f : float) :
  (0 <? f)%float = true -> Prim2SF (0 / f)%float = S754_zero false.
Proof.
  intros H. rewrite div_spec. change (Prim2SF 0%float) with (S754_zero false).
  destruct (positive_float_cases f H) as [(m & e & ->) | ->]; reflexivity.
Qed.

Lemma py_round_finite (q : float) :
  finite_float q = true -> exists n, py_round q = Ok n.
Proof.
  unfold finite_float, py_round.
  destruct (Prim2SF q); try discriminate; eauto.
Qed.

(** With a positive [fps] and a finite quotient the stride is computed. *)
Lemma frame_skip_of_positive (frame_rate : float) (fps : pynum) (f : float) :
  to_float fps = Ok f -> (0 <? f)%float = true ->
  finite_float (frame_rate / f) = true ->
  exists n, frame_skip_of frame_rate fps = Ok (Z.max 1 n).
Proof.
  intros Hf Hpos Hfin. destruct (py_round_finite _ Hfin) as (n & Hn).
  exists n. unfold frame_skip_of, truediv. rewrite Hf. cbn [bind].
  rewrite positive_float_not_zero by assumption. cbn [bind].
  now rewrite Hn.
Qed.

(** C5: [load_video_frames] computes the stride
    [max(1, round(frame_rate / fps))], which is at least one, and returns
    the frames whose zero-based index is zero modulo the stride, in order,
    and no others: these are the indices [0, stride, 2 * stride, ...].  For
    a native rate of 30 and [fps = 8] the quotient is 3.75 and the stride is
    4, and of 14 frames the frames 0, 4, 8 and 12 are retained. *)
Theorem frame_sampler_stride_and_retention
    (fs : filesystem) (video_path : string) (fps : pynum) :
  let cap := cv2_VideoCapture fs video_path in
  let n := List.length (pending cap) in
  load_video_frames fs video_path fps
  = (q <- truediv (CAP_PROP_FPS cap) fps ;;
     r <- py_round q ;;
     let stride := Z.max 1 r in
     Ok (map (fun i => to_image (nth i (pending cap) []))
             (retained_indices stride n))) /\
  (forall r : Z,
     let stride := Z.max 1 r in
     1 <= stride /\
     (forall i, In i (retained_indices stride n)
                <-> (i < n)%nat /\ Z.of_nat i mod stride = 0) /\
     retained_indices stride n
     = map (fun j => (j * Z.to_nat stride)%nat)
           (seq 0 (Z.to_nat ((Z.of_nat n + stride - 1) / stride)))) /\
  truediv 30 (PyInt 8) = Ok 3.75%float /\
  py_round 3.75 = Ok 4 /\
  frame_skip_of 30 (PyInt 8) = Ok 4 /\
  retained_indices 4 14 = [0; 4; 8; 12]%nat.
Proof.
  intros cap n. split; [| split].
  - pose proof (load_video_frames_spec fs video_path fps) as H.
    cbv zeta in H. fold cap in H. fold n in H. rewrite H.
    unfold frame_skip_of.
    destruct (truediv (CAP_PROP_FPS cap) fps) as [q | e]; cbn [bind];
      [| reflexivity].
    destruct (py_round q) as [r | e]; reflexivity.
  - intros r stride. split; [unfold stride; lia |].
    split; [intros i; apply retained_indices_In |].
    apply retained_indices_multiples. unfold stride. lia.
  - by_evaluation.
Qed.

(** The 14-frame video recorded at 30 frames per second, sampled at 8:
    the frames 0, 4, 8 and 12. *)
Lemma frame_sampler_stride_and_retention_witness :
  load_video_frames demo_fs "film30.mp4" (PyInt 8)
  = Ok (map (fun i => to_image (demo_frame (Z.of_nat i))) [0; 4; 8; 12]%nat).
Proof.
  destruct (frame_sampler_stride_and_retention demo_fs "film30.mp4" (PyInt 8))
    as (H & _).
  rewrite H. vm_compute. reflexivity.
Defined.

(** C6, as stated, fails: a video whose frame rate reads zero makes
    [load_video_frames] return normally, with all its frames. *)
Lemma zero_frame_rate_is_no_error :
  CAP_PROP_FPS (cv2_VideoCapture demo_fs "still.mp4") = 0%float /\
  load_video_frames demo_fs "still.mp4" (PyInt 8)
  = Ok (map (fun i => to_image (demo_frame i)) [0; 1; 2]).
Proof. by_evaluation. Qed.

(** The condition on [fps] below is needed: an int too large for a float
    raises at the division, whatever the frame rate. *)
Lemma zero_frame_rate_huge_int_fps_raises :
  load_video_frames demo_fs "still.mp4" (PyInt (10 ^ 400)) = Err OverflowError.
Proof. by_evaluation. Qed.

(** C6, amended: when the frame rate reads zero, [load_video_frames]
    raises nothing for any [fps] whose value as a float is positive (a
    positive float, or a positive int that converts to a float): the
    quotient [0 / fps] is zero, the stride is one, and every decoded frame is
    retained.  The frame rate is the dividend, so no division by zero
    occurs. *)
Theorem zero_frame_rate_keeps_every_frame
    (fs : filesystem) (video_path : string) (fps : pynum) (f : float) :
  let cap := cv2_VideoCapture fs video_path in
  CAP_PROP_FPS cap = 0%float ->
  to_float fps = Ok f -> (0 <? f)%float = true ->
  truediv (CAP_PROP_FPS cap) fps = Ok (0 / f)%float /\
  frame_skip_of (CAP_PROP_FPS cap) fps = Ok 1 /\
  load_video_frames fs video_path fps = Ok (map to_image (pending cap)).
Proof.
  intros cap HR Hf Hpos.
  assert (Hdiv : truediv (CAP_PROP_FPS cap) fps = Ok (0 / f)%float).
  { unfold truediv. rewrite Hf, HR. cbn [bind].
    now rewrite positive_float_not_zero. }
  assert (Hskip : frame_skip_of (CAP_PROP_FPS cap) fps = Ok 1).
  { unfold frame_skip_of. rewrite Hdiv. cbn [bind].
    unfold py_round. now rewrite zero_div_positive. }
  split; [exact Hdiv |]. split; [exact Hskip |].
  pose proof (load_video_frames_spec fs video_path fps) as H.
  cbv zeta in H. fold cap in H. rewrite Hskip in H. cbn [bind] in H.
  rewrite H. f_equal.
  rewrite <- (map_nth_seq (pending cap) []) at 2. rewrite map_map.
  f_equal. unfold retained_indices.
  apply forallb_filter_id. apply forallb_forall. intros i _.
  now rewrite Z.mod_1_r.
Qed.

(** The video whose frame rate reads zero keeps its three frames. *)
Lemma zero_frame_rate_keeps_every_frame_witness :
  truediv (CAP_PROP_FPS (cv2_VideoCapture demo_fs "still.mp4")) (PyInt 8)
  = Ok (0 / 8)%float /\
  frame_skip_of (CAP_PROP_FPS (cv2_VideoCapture demo_fs "still.mp4")) (PyInt 8)
  = Ok 1 /\
  load_video_frames demo_fs "still.mp4" (PyInt 8)
  = Ok (map to_image (pending (cv2_VideoCapture demo_fs "still.mp4"))).
Proof.
  apply (zero_frame_rate_keeps_every_frame demo_fs "still.mp4" (PyInt 8) 8%float);
    vm_compute; reflexivity.
Defined.

(** C10, as stated, fails for a positive [fps] so small that the quotient
    [frame_rate / fps] overflows: with a rate of 30 and the smallest
    positive float (5e-324) the quotient is infinite and [round] raises
    [OverflowError], although the video has frames. *)
Lemma tiny_positive_fps_overflows :
  (0 <? 0x1p-1074)%float = true /\
  CAP_PROP_FPS (cv2_VideoCapture demo_fs "film30.mp4") = 30%float /\
  List.length (pending (cv2_VideoCapture demo_fs "film30.mp4")) = 14%nat /\
  truediv 30 (PyFloat 0x1p-1074) = Ok infinity /\
  load_video_frames demo_fs "film30.mp4" (PyFloat 0x1p-1074) = Err OverflowError.
Proof. by_evaluation. Qed.

(** C10, amended: for every video with at least one decodable frame and
    every positive [fps] for which the quotient [frame_rate / fps] is a
    finite number, [load_video_frames] returns a non-empty list that begins
    with the video's first frame: the stride is at least one and zero is
    zero modulo it. *)
Theorem first_frame_is_retained
    (fs : filesystem) (video_path : string) (fps : pynum) (f : float)
    (frame : ndarray) (rest : list ndarray) :
  let cap := cv2_VideoCapture fs video_path in
  pending cap = frame :: rest ->
  to_float fps = Ok f -> (0 <? f)%float = true ->
  finite_float (CAP_PROP_FPS cap / f) = true ->
  exists stride more,
    1 <= stride /\
    frame_skip_of (CAP_PROP_FPS cap) fps = Ok stride /\
    load_video_frames fs video_path fps = Ok (to_image frame :: more).
Proof.
  intros cap Hframes Hf Hpos Hfin.
  destruct (frame_skip_of_positive _ _ _ Hf Hpos Hfin) as (n & Hskip).
  pose proof (load_video_frames_spec fs video_path fps) as H.
  cbv zeta in H. fold cap in H. rewrite Hskip, Hframes in H. cbn [bind] in H.
  unfold retained_indices in H. cbn [List.length seq filter] in H.
  change (Z.of_nat 0) with 0 in H. rewrite Z.mod_0_l in H by lia.
  cbn [Z.eqb map nth] in H.
  eexists _, _. split; [| split; [exact Hskip | exact H]]. lia.
Qed.

(** The 14-frame video, sampled at 8: the result begins with frame 0. *)
Lemma first_frame_is_retained_witness :
  exists stride more,
    1 <= stride /\
    frame_skip_of (CAP_PROP_FPS (cv2_VideoCapture demo_fs "film30.mp4")) (PyInt 8)
    = Ok stride /\
    load_video_frames demo_fs "film30.mp4" (PyInt 8)
    = Ok (to_image (demo_frame 0) :: more).
Proof.
  apply (first_frame_is_retained demo_fs "film30.mp4" (PyInt 8) 8%float
           (demo_frame 0) (map demo_frame (map Z.of_nat (seq 1 13))));
    vm_compute; reflexivity.
Defined.

(** X1: a video without a decodable frame gives the empty list of frames
    (for a positive [fps] and a finite quotient [frame_rate / fps]). *)
Theorem no_frame_no_image
    (fs : filesystem) (video_path : string) (fps : pynum) (f : float) :
  let cap := cv2_VideoCapture fs video_path in
  pending cap = [] ->
  to_float fps = Ok f -> (0 <? f)%float = true ->
  finite_float (CAP_PROP_FPS cap / f) = true ->
  load_video_frames fs video_path fps = Ok [].
Proof.
  intros cap Hframes Hf Hpos Hfin.
  destruct (frame_skip_of_positive _ _ _ Hf Hpos Hfin) as (n & Hskip).
  pose proof (load_video_frames_spec fs video_path fps) as H.
  cbv zeta in H. fold cap in H. rewrite Hskip, Hframes in H. exact H.
Qed.

(** The video without a frame. *)
Lemma no_frame_no_image_witness :
  load_video_frames demo_fs "blank.mp4" (PyInt 8) = Ok [].
Proof.
  apply (no_frame_no_image demo_fs "blank.mp4" (PyInt 8) 8%float);
    vm_compute; reflexivity.
Defined.

(** ** [load_video_paths] *)

(** Of the entries of the corpus directory only the two [.mp4] names are
    returned, joined to the directory's path; the subdirectory is not
    entered. *)
Lemma load_video_paths_demo :
  load_video_paths demo_fs "videos/" = Ok ["videos/a.mp4"; "videos/b.mp4"] /\
  load_video_paths demo_fs "empty/" = Ok [] /\
  load_video_paths demo_fs "nowhere/" = Err FileNotFoundError.
Proof. by_evaluation. Qed.

(** C8: on an existing empty directory [load_video_paths] returns the
    empty list; on a path that does not exist it raises
    [FileNotFoundError], a source-read error; and on a directory it returns,
    in listing order, the paths of exactly those of the directory's own
    entries whose name ends in [.mp4]. *)
Theorem load_video_paths_spec (fs : filesystem) (training_path : string) :
  (fs training_path = Some (Directory []) ->
     load_video_paths fs training_path = Ok []) /\
  (fs training_path = None ->
     load_video_paths fs training_path = Err FileNotFoundError /\
     kind_of FileNotFoundError = SourceReadError) /\
  (forall entries, fs training_path = Some (Directory entries) ->
     exists paths,
       load_video_paths fs training_path = Ok paths /\
       paths = map (os_path_join training_path)
                   (filter (fun f => endswith f ".mp4") entries) /\
       forall p, In p paths <->
                 exists f, In f entries /\ endswith f ".mp4" = true /\
                           p = os_path_join training_path f).
Proof.
  unfold load_video_paths, os_listdir. split; [| split].
  - intros ->. reflexivity.
  - intros ->. split; reflexivity.
  - intros entries ->. cbn [bind]. eexists. split; [reflexivity |].
    split; [reflexivity |]. intros p. rewrite in_map_iff. split.
    + intros (f & <- & Hf). apply filter_In in Hf as [Hin Hmp4]. eauto.
    + intros (f & Hin & Hmp4 & ->). exists f. split; [reflexivity |].
      apply filter_In. auto.
Qed.

(** ** [VideoFrameDataset] *)

(** Every video adds two entries to the dataset: the tensor of its contexts
    and the tensor of its targets. *)
Lemma process_videos_length (fs : filesystem) (img2vec : Img2Vec) (fps : pynum) :
  forall (paths : list string) (acc dataset : list tensor),
    VideoFrameDataset.process_videos fs img2vec fps paths acc = Ok dataset ->
    List.length dataset = (List.length acc + 2 * List.length paths)%nat.
Proof.
  induction paths as [| video_path paths IH]; intros acc dataset H;
    cbn [VideoFrameDataset.process_videos] in H.
  - injection H as <-. simpl. lia.
  - apply bind_Ok_inv in H as (frames & _ & H).
    apply bind_Ok_inv in H as (Xy & _ & H).
    apply IH in H. rewrite H, length_app. simpl. lia.
Qed.

(** C1: on a corpus of two videos of five sampled frames each the dataset
    holds four entries, not ten: per video the tensor [X] of all contexts and
    the tensor [y] of all targets.  Index 5, the first Example of the second
    video, is out of range, and index 2 holds the second video's whole [X]. *)
Theorem dataset_holds_two_tensors_per_video :
  exists (framesA framesB : list Image) (XA yA XB yB : tensor)
         (self : VideoFrameDataset.t),
    load_video_paths demo_fs "videos/" = Ok ["videos/a.mp4"; "videos/b.mp4"] /\
    load_video_frames demo_fs "videos/a.mp4" (PyInt 8) = Ok framesA /\
    load_video_frames demo_fs "videos/b.mp4" (PyInt 8) = Ok framesB /\
    List.length framesA = 5%nat /\ List.length framesB = 5%nat /\
    prepare_data (get_frame_embeddings framesA demo_img2vec) = Ok (XA, yA) /\
    prepare_data (get_frame_embeddings framesB demo_img2vec) = Ok (XB, yB) /\
    VideoFrameDataset.__init__ demo_fs ["videos/a.mp4"; "videos/b.mp4"]
      demo_img2vec None (PyInt 8) = Ok self /\
    VideoFrameDataset.dataset self = [XA; yA; XB; yB] /\
    VideoFrameDataset.__len__ self = 4 /\
    VideoFrameDataset.__getitem__ self 5 = Err IndexError /\
    VideoFrameDataset.__getitem__ self 2 = Ok XB /\
    shape XB = [5; 3; 2]%nat /\
    XB <> XA.
Proof.
  do 7 eexists. repeat split; try (vm_compute; reflexivity).
  vm_compute. intros H. discriminate H.
Qed.

(** C7, as stated, fails below zero: a negative index down to [-size()]
    reads from the end of the dataset instead of raising. *)
Lemma negative_index_reads_from_the_end :
  exists (self : VideoFrameDataset.t) (last : tensor),
    VideoFrameDataset.__init__ demo_fs ["videos/a.mp4"; "videos/b.mp4"]
      demo_img2vec None (PyInt 8) = Ok self /\
    VideoFrameDataset.__len__ self = 4 /\
    VideoFrameDataset.__getitem__ self (-1) = Ok last /\
    VideoFrameDataset.__getitem__ self 3 = Ok last.
Proof.
  do 2 eexists. by_evaluation.
Qed.

(** C7, amended: for every integer index with [-size() <= index < size()]
    [__getitem__] returns the dataset entry at position [index mod size()]
    (a negative index counts from the end), and for every other integer index
    it raises [IndexError]. *)
Theorem dataset_getitem_range (self : VideoFrameDataset.t) (idx : Z) :
  let n := VideoFrameDataset.__len__ self in
  (- n <= idx < n ->
     exists entry,
       nth_error (VideoFrameDataset.dataset self) (Z.to_nat (idx mod n))
       = Some entry /\
       VideoFrameDataset.__getitem__ self idx = Ok entry) /\
  (~ (- n <= idx < n) ->
     VideoFrameDataset.__getitem__ self idx = Err IndexError /\
     kind_of IndexError = IndexErrorKind).
Proof.
  intros n. unfold VideoFrameDataset.__getitem__, py_getitem.
  fold (VideoFrameDataset.__len__ self). fold n. cbv zeta.
  assert (Hn : n = Z.of_nat (List.length (VideoFrameDataset.dataset self)))
    by reflexivity.
  split.
  - intros Hin.
    set (j := if idx <? 0 then idx + n else idx).
    assert (Hj : 0 <= j < n /\ j = idx mod n).
    { unfold j. destruct (Z.ltb_spec idx 0).
      - split; [lia |]. apply (Z.mod_unique idx n (-1)); lia.
      - split; [lia |]. symmetry. apply Z.mod_small. lia. }
    destruct Hj as [Hj <-].
    replace (j <? 0) with false by (symmetry; apply Z.ltb_ge; lia).
    replace (n <=? j) with false by (symmetry; apply Z.leb_gt; lia).
    cbn [orb].
    destruct (nth_error _ (Z.to_nat j)) as [entry |] eqn:E; [eauto |].
    apply nth_error_None in E. lia.
  - intros Hout. split; [| reflexivity].
    destruct (Z.ltb_spec idx 0).
    + destruct (Z.ltb_spec (idx + n) 0); [reflexivity | lia].
    + destruct (Z.ltb_spec idx 0); [lia |].
      destruct (Z.leb_spec n idx); [reflexivity | lia].
Qed.

(** X2: an empty corpus directory gives a dataset of size zero, without an
    error. *)
Theorem empty_directory_empty_dataset
    (fs : filesystem) (training_path : string) (img2vec : Img2Vec)
    (transform : option (Image -> Image)) (fps : pynum) :
  fs training_path = Some (Directory []) ->
  exists self,
    (video_paths <- load_video_paths fs training_path ;;
     VideoFrameDataset.__init__ fs video_paths img2vec transform fps) = Ok self /\
    VideoFrameDataset.__len__ self = 0.
Proof.
  intros Hdir. unfold load_video_paths, os_listdir. rewrite Hdir.
  eexists. split; reflexivity.
Qed.

(** The empty directory of the demo. *)
Lemma empty_directory_empty_dataset_witness :
  exists self,
    (video_paths <- load_video_paths demo_fs "empty/" ;;
     VideoFrameDataset.__init__ demo_fs video_paths demo_img2vec None (PyInt 8))
    = Ok self /\
    VideoFrameDataset.__len__ self = 0.
Proof.
  apply (empty_directory_empty_dataset demo_fs "empty/" demo_img2vec None (PyInt 8)).
  reflexivity.
Defined.

(** * Further properties of the code *)

(** ** [load_video_frames] *)

Lemma frame_skip_of_ge_1 (frame_rate : float) (fps : pynum) (stride : Z) :
  frame_skip_of frame_rate fps = Ok stride -> 1 <= stride.
Proof.
  unfold frame_skip_of. intros H.
  apply bind_Ok_inv in H as (q & _ & H).
  apply bind_Ok_inv in H as (n & _ & H).
  injection H as <-. lia.
Qed.

Lemma retained_indices_length (stride : Z) (n : nat) :
  1 <= stride ->
  Z.of_nat (List.length (retained_indices stride n))
  = (Z.of_nat n + stride - 1) / stride.
Proof.
  intros Hk. rewrite retained_indices_multiples by assumption.
  rewrite length_map, length_seq. apply Z2Nat.id.
  apply Z.div_pos; lia.
Qed.

(** X3: when [load_video_frames] returns, the number of frames it returns
    is the number of decoded frames divided by the stride, rounded up; it
    is never more than the number of decoded frames. *)
Theorem load_video_frames_count
    (fs : filesystem) (video_path : string) (fps : pynum) (images : list Image) :
  let cap := cv2_VideoCapture fs video_path in
  let n := List.length (pending cap) in
  load_video_frames fs video_path fps = Ok images ->
  exists stride,
    frame_skip_of (CAP_PROP_FPS cap) fps = Ok stride /\
    1 <= stride /\
    Z.of_nat (List.length images) = (Z.of_nat n + stride - 1) / stride /\
    (List.length images <= n)%nat.
Proof.
  intros cap n H.
  pose proof (load_video_frames_spec fs video_path fps) as Hspec.
  cbv zeta in Hspec. fold cap in Hspec. fold n in Hspec.
  rewrite Hspec in H.
  apply bind_Ok_inv in H as (stride & Hskip & H). injection H as <-.
  pose proof (frame_skip_of_ge_1 _ _ _ Hskip) as Hge.
  exists stride. repeat split; try assumption.
  - rewrite length_map. now apply retained_indices_length.
  - rewrite length_map. unfold retained_indices.
    eapply Nat.le_trans; [apply filter_length_le | now rewrite length_seq].
Qed.

(** Of the 14 frames recorded at 30 frames per second, sampled at 8, four
    are returned. *)
Lemma load_video_frames_count_witness :
  exists stride,
    frame_skip_of (CAP_PROP_FPS (cv2_VideoCapture demo_fs "film30.mp4")) (PyInt 8)
    = Ok stride /\
    1 <= stride /\
    Z.of_nat
      (List.length (map (fun i => to_image (demo_frame (Z.of_nat i))) [0; 4; 8; 12]%nat))
    = (Z.of_nat (List.length (pending (cv2_VideoCapture demo_fs "film30.mp4")))
       + stride - 1) / stride /\
    (List.length (map (fun i => to_image (demo_frame (Z.of_nat i))) [0; 4; 8; 12]%nat)
     <= List.length (pending (cv2_VideoCapture demo_fs "film30.mp4")))%nat.
Proof.
  apply (load_video_frames_count demo_fs "film30.mp4" (PyInt 8)).
  vm_compute. reflexivity.
Defined.

(** X4: an [fps] of zero (the int [0], or the float [0.0] or [-0.0]) makes
    [load_video_frames] raise [ZeroDivisionError], whatever the video. *)
Theorem zero_fps_raises
    (fs : filesystem) (video_path : string) (fps : pynum) (f : float) :
  to_float fps = Ok f -> is_zero f = true ->
  load_video_frames fs video_path fps = Err ZeroDivisionError.
Proof.
  intros Hf Hz. unfold load_video_frames, frame_skip_of, truediv.
  rewrite Hf. cbn [bind]. rewrite Hz. reflexivity.
Qed.

Lemma zero_fps_raises_witness :
  load_video_frames demo_fs "film30.mp4" (PyInt 0) = Err ZeroDivisionError /\
  load_video_frames demo_fs "film30.mp4" (PyFloat (-0)%float)
  = Err ZeroDivisionError.
Proof.
  split.
  - apply (zero_fps_raises demo_fs "film30.mp4" (PyInt 0) 0%float);
      vm_compute; reflexivity.
  - apply (zero_fps_raises demo_fs "film30.mp4" (PyFloat (-0)%float) (-0)%float);
      vm_compute; reflexivity.
Defined.

Lemma stride_one_keeps_all (fs : filesystem) (video_path : string) (fps : pynum) :
  let cap := cv2_VideoCapture fs video_path in
  frame_skip_of (CAP_PROP_FPS cap) fps = Ok 1 ->
  load_video_frames fs video_path fps = Ok (map to_image (pending cap)).
Proof.
  intros cap Hskip.
  pose proof (load_video_frames_spec fs video_path fps) as H.
  cbv zeta in H. fold cap in H. rewrite Hskip in H. cbn [bind] in H.
  rewrite H. f_equal.
  rewrite <- (map_nth_seq (pending cap) []) at 2. rewrite map_map.
  f_equal. unfold retained_indices.
  apply forallb_filter_id. apply forallb_forall. intros i _.
  now rewrite Z.mod_1_r.
Qed.

(** X5: when the quotient [frame_rate / fps] rounds to one or less (the
    target rate is at least about the native rate, or the quotient is
    negative), the stride is one and every decoded frame is returned, in
    order. *)
Theorem no_subsampling_keeps_every_frame
    (fs : filesystem) (video_path : string) (fps : pynum) (q : float) (r : Z) :
  let cap := cv2_VideoCapture fs video_path in
  truediv (CAP_PROP_FPS cap) fps = Ok q -> py_round q = Ok r -> r <= 1 ->
  load_video_frames fs video_path fps = Ok (map to_image (pending cap)).
Proof.
  intros cap Hq Hr Hle. apply stride_one_keeps_all. fold cap.
  unfold frame_skip_of. rewrite Hq. cbn [bind]. rewrite Hr. cbn [bind].
  f_equal. lia.
Qed.

(** A video recorded at 8 frames per second, sampled at 8 and at -8. *)
Lemma no_subsampling_keeps_every_frame_witness :
  load_video_frames demo_fs "videos/a.mp4" (PyInt 8)
  = Ok (map to_image (pending (cv2_VideoCapture demo_fs "videos/a.mp4"))) /\
  load_video_frames demo_fs "videos/a.mp4" (PyInt (-8))
  = Ok (map to_image (pending (cv2_VideoCapture demo_fs "videos/a.mp4"))).
Proof.
  split.
  - apply (no_subsampling_keeps_every_frame demo_fs "videos/a.mp4" (PyInt 8)
             1%float 1); vm_compute; congruence.
  - apply (no_subsampling_keeps_every_frame demo_fs "videos/a.mp4" (PyInt (-8))
             (-1)%float (-1)); vm_compute; congruence.
Defined.

(** ** [prepare_data] *)

Lemma firstn_3_skipn {A : Type} (l : list A) (d : A) (k : nat) :
  (k + 3 <= List.length l)%nat ->
  firstn 3 (skipn k l) = [nth k l d; nth (k + 1) l d; nth (k + 2) l d].
Proof.
  intros Hk.
  assert (Hlen : (3 <= List.length (skipn k l))%nat)
    by (rewrite length_skipn; lia).
  rewrite <- (Nat.add_0_r k) at 2.
  rewrite <- !(nth_skipn k l).
  destruct (skipn k l) as [| a [| b [| c rest]]]; simpl in Hlen; try lia.
  reflexivity.
Qed.

Lemma firstn_as_nth {A : Type} (l : list A) (d : A) (i : nat) :
  (i <= List.length l)%nat ->
  firstn i l = map (fun j => nth j l d) (seq 0 i).
Proof.
  revert l. induction i as [| i IH]; intros l Hi; [reflexivity |].
  destruct l as [| a l]; simpl in Hi; [lia |].
  cbn [firstn seq map nth]. f_equal.
  rewrite <- seq_shift, map_map. apply IH. lia.
Qed.

(** The context of index [i] below three: padding, then the frames so far. *)
Lemma spec_context_3_early (embs : list tensor) (null : tensor) (i : nat) :
  (i < 3)%nat -> (i < List.length embs)%nat ->
  spec_context 3 embs null i = repeat null (3 - i) ++ firstn i embs.
Proof.
  intros H3 Hi. rewrite spec_context_3, (firstn_as_nth embs null i) by lia.
  destruct i as [| [| [| i]]]; try lia; reflexivity.
Qed.

(** The context of an index from three on: the three frames before it. *)
Lemma spec_context_3_late (embs : list tensor) (null : tensor) (i : nat) :
  (3 <= i)%nat -> (i < List.length embs)%nat ->
  spec_context 3 embs null i = firstn 3 (skipn (i - 3) embs).
Proof.
  intros H3 Hi. rewrite spec_context_3, (firstn_3_skipn embs null) by lia.
  replace (Z.of_nat i - 3 <? 0) with false by (symmetry; apply Z.ltb_ge; lia).
  replace (Z.of_nat i - 2 <? 0) with false by (symmetry; apply Z.ltb_ge; lia).
  replace (Z.of_nat i - 1 <? 0) with false by (symmetry; apply Z.ltb_ge; lia).
  replace (i - 3 + 1)%nat with (i - 2)%nat by lia.
  replace (i - 3 + 2)%nat with (i - 1)%nat by lia.
  reflexivity.
Qed.

(** Each context is the previous one moved up by a slot, with the previous
    target in the last slot. *)
Lemma spec_context_3_slide (embs : list tensor) (null : tensor) (i : nat) :
  spec_context 3 embs null (S i)
  = tl (spec_context 3 embs null i) ++ [nth i embs null].
Proof.
  rewrite !spec_context_3. cbn [tl app].
  replace (Z.of_nat (S i) - 3) with (Z.of_nat i - 2) by lia.
  replace (Z.of_nat (S i) - 2) with (Z.of_nat i - 1) by lia.
  replace (Z.of_nat (S i) - 1 <? 0) with false by (symmetry; apply Z.ltb_ge; lia).
  replace (S i - 3)%nat with (i - 2)%nat by lia.
  replace (S i - 2)%nat with (i - 1)%nat by lia.
  replace (S i - 1)%nat with i by lia.
  reflexivity.
Qed.

Section Windows.

Variable s : list nat.
Variable embs : list tensor.
Hypothesis embs_nonempty : embs <> [].
Hypothesis embs_shape : embeddings_of_shape s embs.
Hypothesis embs_wf : Forall wf_tensor embs.

(** X6: the context of the Example of index [i] is, for [i < 3], [3 - i]
    all-zero embeddings followed by the first [i] embeddings of the video,
    and for [i >= 3] the three embeddings just before index [i]: padding
    occurs only in the first three Examples, in the earliest slots. *)
Theorem prepare_data_padding_then_history (i : nat) :
  (i < List.length embs)%nat ->
  exists Xy examples context,
    prepare_data embs = Ok Xy /\
    examples_of Xy = Ok examples /\
    nth_error examples i = Some (context, nth i embs (torch_zeros s)) /\
    ((i < 3)%nat ->
       context = repeat (torch_zeros s) (3 - i) ++ firstn i embs) /\
    ((3 <= i)%nat -> context = firstn 3 (skipn (i - 3) embs)).
Proof.
  intros Hi. eexists _, _, _.
  split; [exact (prepare_data_Ok s embs embs_nonempty embs_shape) |].
  split; [exact (examples_of_prepared s embs embs_shape embs_wf) |].
  split; [now apply spec_examples_nth |]. split.
  - intros H3. now apply spec_context_3_early.
  - intros H3. now apply spec_context_3_late.
Qed.

(** X7: the window slides by one frame: the context of Example [i + 1] is
    the context of Example [i] without its oldest slot, followed by the
    target of Example [i]. *)
Theorem prepare_data_window_slides (i : nat) :
  (S i < List.length embs)%nat ->
  exists Xy examples context target context' target',
    prepare_data embs = Ok Xy /\
    examples_of Xy = Ok examples /\
    nth_error examples i = Some (context, target) /\
    nth_error examples (S i) = Some (context', target') /\
    context' = tl context ++ [target].
Proof.
  intros Hi. eexists _, _, _, _, _, _.
  split; [exact (prepare_data_Ok s embs embs_nonempty embs_shape) |].
  split; [exact (examples_of_prepared s embs embs_shape embs_wf) |].
  split; [apply spec_examples_nth; lia |].
  split; [now apply spec_examples_nth |].
  apply spec_context_3_slide.
Qed.

End Windows.

(** Example 1 and Example 4 of the five embeddings of the demo. *)
Lemma prepare_data_padding_then_history_witness :
  (exists Xy examples context,
      prepare_data (demo_embeddings 5) = Ok Xy /\
      examples_of Xy = Ok examples /\
      nth_error examples 1
      = Some (context, nth 1 (demo_embeddings 5) (torch_zeros [2%nat])) /\
      ((1 < 3)%nat ->
         context = repeat (torch_zeros [2%nat]) (3 - 1)
                   ++ firstn 1 (demo_embeddings 5)) /\
      ((3 <= 1)%nat -> context = firstn 3 (skipn (1 - 3) (demo_embeddings 5)))) /\
  (exists Xy examples context,
      prepare_data (demo_embeddings 5) = Ok Xy /\
      examples_of Xy = Ok examples /\
      nth_error examples 4
      = Some (context, nth 4 (demo_embeddings 5) (torch_zeros [2%nat])) /\
      ((4 < 3)%nat ->
         context = repeat (torch_zeros [2%nat]) (3 - 4)
                   ++ firstn 4 (demo_embeddings 5)) /\
      ((3 <= 4)%nat -> context = firstn 3 (skipn (4 - 3) (demo_embeddings 5)))).
Proof.
  split.
  - apply (prepare_data_padding_then_history [2%nat] (demo_embeddings 5));
      [discriminate | repeat constructor | repeat constructor | simpl; lia].
  - apply (prepare_data_padding_then_history [2%nat] (demo_embeddings 5));
      [discriminate | repeat constructor | repeat constructor | simpl; lia].
Defined.

(** Examples 2 and 3 of the five embeddings of the demo. *)
Lemma prepare_data_window_slides_witness :
  exists Xy examples context target context' target',
    prepare_data (demo_embeddings 5) = Ok Xy /\
    examples_of Xy = Ok examples /\
    nth_error examples 2 = Some (context, target) /\
    nth_error examples 3 = Some (context', target') /\
    context' = tl context ++ [target].
Proof.
  apply (prepare_data_window_slides [2%nat] (demo_embeddings 5));
    [discriminate | repeat constructor | repeat constructor | simpl; lia].
Defined.

(** ** [load_video_paths] *)

Lemma string_length_append (a b : string) :
  String.length (a ++ b) = (String.length a + String.length b)%nat.
Proof. induction a as [| c a IH]; simpl; [reflexivity | now rewrite IH]. Qed.

Lemma substring_append_skip (a b : string) (k m : nat) :
  substring (String.length a + k) m (a ++ b) = substring k m b.
Proof. induction a as [| c a IH]; simpl; [reflexivity | exact IH]. Qed.

(** A suffix of [b] is a suffix of [a ++ b]. *)
Lemma endswith_append (a b suffix : string) :
  endswith b suffix = true -> endswith (a ++ b) suffix = true.
Proof.
  unfold endswith. intros H. apply andb_true_iff in H as [Hle Heq].
  apply Nat.leb_le in Hle. apply andb_true_iff. split.
  - apply Nat.leb_le. rewrite string_length_append. lia.
  - rewrite string_length_append.
    replace (String.length a + String.length b - String.length suffix)%nat
      with (String.length a + (String.length b - String.length suffix))%nat
      by lia.
    now rewrite substring_append_skip.
Qed.

Lemma os_path_join_endswith (a b suffix : string) :
  endswith b suffix = true -> endswith (os_path_join a b) suffix = true.
Proof.
  intros H. unfold os_path_join.
  destruct (startswith b "/"); [exact H |].
  destruct (_ || _); repeat apply endswith_append; exact H.
Qed.

(** X11: every path [load_video_paths] returns ends in [.mp4] itself, and
    it returns at most as many paths as the directory has entries. *)
Theorem load_video_paths_all_mp4
    (fs : filesystem) (training_path : string) (paths : list string) :
  load_video_paths fs training_path = Ok paths ->
  Forall (fun p => endswith p ".mp4" = true) paths /\
  exists entries,
    fs training_path = Some (Directory entries) /\
    (List.length paths <= List.length entries)%nat.
Proof.
  unfold load_video_paths, os_listdir. intros H.
  destruct (fs training_path) as [[entries | content] |]; try discriminate.
  cbn [bind] in H. injection H as <-. split.
  - apply Forall_map, Forall_forall. intros f Hf.
    apply filter_In in Hf as [_ Hf]. now apply os_path_join_endswith.
  - exists entries. split; [reflexivity |].
    rewrite length_map. apply filter_length_le.
Qed.

(** The corpus directory of the demo: two paths out of four entries. *)
Lemma load_video_paths_all_mp4_witness :
  Forall (fun p => endswith p ".mp4" = true) ["videos/a.mp4"; "videos/b.mp4"] /\
  exists entries,
    demo_fs "videos/" = Some (Directory entries) /\
    (List.length ["videos/a.mp4"; "videos/b.mp4"] <= List.length entries)%nat.
Proof.
  apply (load_video_paths_all_mp4 demo_fs "videos/").
  vm_compute. reflexivity.
Defined.

(** ** [VideoFrameDataset.load_and_process_videos] *)

Section Corpus.

Variable fs : filesystem.
Variable img2vec : Img2Vec.
Variable fps : pynum.

(** The entries a run appends do not depend on the entries already there. *)
Lemma process_videos_acc :
  forall (paths : list string) (acc : list tensor),
    VideoFrameDataset.process_videos fs img2vec fps paths acc
    = (d <- VideoFrameDataset.process_videos fs img2vec fps paths [] ;;
       Ok (acc ++ d)).
Proof.
  induction paths as [| video_path paths IH]; intros acc;
    cbn [VideoFrameDataset.process_videos].
  - cbn [bind]. now rewrite app_nil_r.
  - destruct (load_video_frames fs video_path fps) as [frames | e];
      cbn [bind]; [| reflexivity].
    destruct (prepare_data _) as [Xy | e]; cbn [bind]; [| reflexivity].
    rewrite (IH (acc ++ _)), (IH ([] ++ _)).
    destruct (VideoFrameDataset.process_videos fs img2vec fps paths [])
      as [d | e]; cbn [bind]; [| reflexivity].
    now rewrite <- app_assoc.
Qed.

Lemma process_videos_app :
  forall (paths1 paths2 : list string) (acc : list tensor),
    VideoFrameDataset.process_videos fs img2vec fps (paths1 ++ paths2) acc
    = (d <- VideoFrameDataset.process_videos fs img2vec fps paths1 acc ;;
       VideoFrameDataset.process_videos fs img2vec fps paths2 d).
Proof.
  induction paths1 as [| video_path paths1 IH]; intros paths2 acc;
    cbn [app VideoFrameDataset.process_videos bind]; [reflexivity |].
  destruct (load_video_frames fs video_path fps) as [frames | e];
    cbn [bind]; [| reflexivity].
  destruct (prepare_data _) as [Xy | e]; cbn [bind]; [| reflexivity].
  apply IH.
Qed.

(** X8: the videos are processed one after the other and independently:
    the dataset of two lists of paths put together is the dataset of the
    first followed by the dataset of the second. *)
Theorem load_and_process_videos_app
    (paths1 paths2 : list string) (d1 d2 : list tensor) :
  VideoFrameDataset.load_and_process_videos fs paths1 img2vec fps = Ok d1 ->
  VideoFrameDataset.load_and_process_videos fs paths2 img2vec fps = Ok d2 ->
  VideoFrameDataset.load_and_process_videos fs (paths1 ++ paths2) img2vec fps
  = Ok (d1 ++ d2).
Proof.
  unfold VideoFrameDataset.load_and_process_videos. intros H1 H2.
  rewrite process_videos_app, H1. cbn [bind].
  rewrite process_videos_acc, H2. reflexivity.
Qed.

(** X10: the first video that fails aborts the whole construction: after
    videos that were processed, a video without a sampled frame raises
    [IndexError], and a video whose frames cannot be sampled raises the
    error of [load_video_frames]; the videos after it are not reached. *)
Theorem failing_video_aborts_dataset
    (paths1 paths2 : list string) (video_path : string) (d1 : list tensor) :
  VideoFrameDataset.load_and_process_videos fs paths1 img2vec fps = Ok d1 ->
  (load_video_frames fs video_path fps = Ok [] ->
     VideoFrameDataset.load_and_process_videos fs
       (paths1 ++ video_path :: paths2) img2vec fps = Err IndexError) /\
  (forall e, load_video_frames fs video_path fps = Err e ->
     VideoFrameDataset.load_and_process_videos fs
       (paths1 ++ video_path :: paths2) img2vec fps = Err e).
Proof.
  unfold VideoFrameDataset.load_and_process_videos. intros H1.
  split; [intros Hv | intros e Hv];
    rewrite process_videos_app, H1; cbn [bind VideoFrameDataset.process_videos];
    rewrite Hv; reflexivity.
Qed.

End Corpus.

(** The two videos of the corpus directory, one after the other. *)
Lemma load_and_process_videos_app_witness :
  exists d1 d2,
    VideoFrameDataset.load_and_process_videos demo_fs ["videos/a.mp4"]
      demo_img2vec (PyInt 8) = Ok d1 /\
    VideoFrameDataset.load_and_process_videos demo_fs ["videos/b.mp4"]
      demo_img2vec (PyInt 8) = Ok d2 /\
    VideoFrameDataset.load_and_process_videos demo_fs
      (["videos/a.mp4"] ++ ["videos/b.mp4"]) demo_img2vec (PyInt 8)
    = Ok (d1 ++ d2).
Proof.
  eexists _, _. split; [vm_compute; reflexivity |].
  split; [vm_compute; reflexivity |].
  apply (load_and_process_videos_app demo_fs demo_img2vec (PyInt 8));
    vm_compute; reflexivity.
Defined.

(** A video without a frame between the two videos of the corpus
    directory. *)
Lemma failing_video_aborts_dataset_witness :
  VideoFrameDataset.load_and_process_videos demo_fs
    (["videos/a.mp4"] ++ "blank.mp4" :: ["videos/b.mp4"]) demo_img2vec (PyInt 8)
  = Err IndexError.
Proof.
  assert (H1 : exists d1,
             VideoFrameDataset.load_and_process_videos demo_fs ["videos/a.mp4"]
               demo_img2vec (PyInt 8) = Ok d1)
    by (eexists; vm_compute; reflexivity).
  destruct H1 as [d1 H1].
  apply (proj1 (failing_video_aborts_dataset demo_fs demo_img2vec (PyInt 8)
                  ["videos/a.mp4"] ["videos/b.mp4"] "blank.mp4" d1 H1)).
  vm_compute. reflexivity.
Defined.

Section CorpusShapes.

Variable fs : filesystem.
Variable img2vec : Img2Vec.
Variable fps : pynum.

(** X9: a dataset that was constructed holds two entries for each video
    path, so its size is twice the number of paths. *)
Theorem dataset_size_twice_paths
    (video_paths : list string) (transform : option (Image -> Image))
    (self : VideoFrameDataset.t) :
  VideoFrameDataset.__init__ fs video_paths img2vec transform fps = Ok self ->
  VideoFrameDataset.__len__ self = 2 * len video_paths.
Proof.
  unfold VideoFrameDataset.__init__, VideoFrameDataset.load_and_process_videos.
  intros H. apply bind_Ok_inv in H as (dataset & Hd & H). injection H as <-.
  apply process_videos_length in Hd.
  unfold VideoFrameDataset.__len__, len. cbn [VideoFrameDataset.dataset].
  rewrite Hd. simpl List.length. lia.
Qed.

(** X12: the construction reads no file but the listed videos: on two
    file systems that agree on every listed path it gives the same result. *)
Theorem dataset_reads_only_listed_videos
    (fs' : filesystem) (video_paths : list string) :
  (forall p, In p video_paths -> fs p = fs' p) ->
  VideoFrameDataset.load_and_process_videos fs video_paths img2vec fps
  = VideoFrameDataset.load_and_process_videos fs' video_paths img2vec fps.
Proof.
  unfold VideoFrameDataset.load_and_process_videos. generalize (@nil tensor).
  induction video_paths as [| video_path paths IH]; intros acc Hagree;
    cbn [VideoFrameDataset.process_videos]; [reflexivity |].
  assert (Hv : load_video_frames fs video_path fps
               = load_video_frames fs' video_path fps).
  { unfold load_video_frames, cv2_VideoCapture.
    now rewrite (Hagree video_path (or_introl eq_refl)). }
  rewrite Hv.
  destruct (load_video_frames fs' video_path fps) as [frames | e];
    cbn [bind]; [| reflexivity].
  destruct (prepare_data _) as [Xy | e]; cbn [bind]; [| reflexivity].
  apply IH. intros p Hp. apply Hagree. now right.
Qed.

(** X13: for an embedding model whose vectors all have the shape [s], a
    video with at least one decoded frame whose stride can be computed
    contributes the two entries [X] of shape [k :: 3 :: s] and [y] of shape
    [k :: s], where [k >= 1] is the number of sampled frames, the number of
    decoded frames divided by the stride, rounded up. *)
Theorem video_entries_shapes
    (video_path : string) (s : list nat) (stride : Z) :
  let cap := cv2_VideoCapture fs video_path in
  let n := List.length (pending cap) in
  let k := Z.to_nat ((Z.of_nat n + stride - 1) / stride) in
  (forall img, shape (get_vec img2vec img) = s) ->
  pending cap <> [] ->
  frame_skip_of (CAP_PROP_FPS cap) fps = Ok stride ->
  exists X y,
    VideoFrameDataset.load_and_process_videos fs [video_path] img2vec fps
    = Ok [X; y] /\
    shape X = k :: 3%nat :: s /\ shape y = k :: s /\ (1 <= k <= n)%nat.
Proof.
  intros cap n k Hvec Hframes Hskip.
  pose proof (frame_skip_of_ge_1 _ _ _ Hskip) as Hge.
  pose proof (load_video_frames_spec fs video_path fps) as Hload.
  cbv zeta in Hload. fold cap in Hload. fold n in Hload.
  rewrite Hskip in Hload. cbn [bind] in Hload.
  set (images := map (fun i => to_image (nth i (pending cap) []))
                     (retained_indices stride n)) in Hload.
  assert (Hlen : List.length images = k).
  { unfold images, k. rewrite length_map.
    rewrite <- (retained_indices_length stride n Hge). now rewrite Nat2Z.id. }
  assert (Hn : (0 < n)%nat).
  { unfold n. destruct (pending cap); [congruence | simpl; lia]. }
  assert (Hk : (1 <= k <= n)%nat).
  { rewrite <- Hlen. unfold images. rewrite length_map. split.
    - assert (Hin : In 0%nat (retained_indices stride n)).
      { apply retained_indices_In. split; [exact Hn |].
        apply Z.mod_0_l. lia. }
      destruct (retained_indices stride n); [contradiction | simpl; lia].
    - unfold retained_indices.
      eapply Nat.le_trans; [apply filter_length_le | now rewrite length_seq]. }
  set (embs := get_frame_embeddings images img2vec).
  assert (Hembs_len : List.length embs = k).
  { unfold embs, get_frame_embeddings. now rewrite length_map. }
  assert (Hne : embs <> []).
  { intros E. rewrite E in Hembs_len. simpl in Hembs_len. lia. }
  assert (Hshape : embeddings_of_shape s embs).
  { unfold embs, get_frame_embeddings. apply Forall_map, Forall_forall.
    intros img _. apply Hvec. }
  eexists _, _. split.
  - unfold VideoFrameDataset.load_and_process_videos.
    cbn [VideoFrameDataset.process_videos]. rewrite Hload. cbn [bind].
    fold embs. rewrite (prepare_data_Ok s embs Hne Hshape).
    cbn [bind fst snd app]. reflexivity.
  - unfold stacked. cbn [shape].
    rewrite length_map, length_seq, Hembs_len. auto.
Qed.

End CorpusShapes.

(** The corpus directory of the demo: two paths, four entries. *)
Lemma dataset_size_twice_paths_witness :
  exists self,
    VideoFrameDataset.__init__ demo_fs ["videos/a.mp4"; "videos/b.mp4"]
      demo_img2vec None (PyInt 8) = Ok self /\
    VideoFrameDataset.__len__ self = 2 * len ["videos/a.mp4"; "videos/b.mp4"].
Proof.
  assert (H : exists self,
             VideoFrameDataset.__init__ demo_fs ["videos/a.mp4"; "videos/b.mp4"]
               demo_img2vec None (PyInt 8) = Ok self)
    by (eexists; vm_compute; reflexivity).
  destruct H as [self H]. exists self. split; [exact H |].
  exact (dataset_size_twice_paths demo_fs demo_img2vec (PyInt 8) _ _ _ H).
Defined.

(** Removing the text file of the corpus directory changes nothing. *)
Lemma dataset_reads_only_listed_videos_witness :
  VideoFrameDataset.load_and_process_videos demo_fs
    ["videos/a.mp4"; "videos/b.mp4"] demo_img2vec (PyInt 8)
  = VideoFrameDataset.load_and_process_videos demo_fs_without_notes
      ["videos/a.mp4"; "videos/b.mp4"] demo_img2vec (PyInt 8).
Proof.
  apply (dataset_reads_only_listed_videos demo_fs demo_img2vec (PyInt 8)
           demo_fs_without_notes).
  intros p [<- | [<- | []]]; reflexivity.
Defined.

(** The 14-frame video sampled with stride 4: four Examples. *)
Lemma video_entries_shapes_witness :
  exists X y,
    VideoFrameDataset.load_and_process_videos demo_fs ["film30.mp4"]
      demo_img2vec (PyInt 8) = Ok [X; y] /\
    shape X = [4; 3; 2]%nat /\ shape y = [4; 2]%nat /\
    (1 <= 4 <= List.length (pending (cv2_VideoCapture demo_fs "film30.mp4")))%nat.
Proof.
  apply (video_entries_shapes demo_fs demo_img2vec (PyInt 8) "film30.mp4"
           [2%nat] 4).
  - intros [[| [| [[r g] b] row] rows]]; reflexivity.
  - vm_compute. discriminate.
  - vm_compute. reflexivity.
Defined.
